(** * TomatoBar → Notion work-period pipeline

    A shallow embedding of the script that turns TomatoBar's transition log
    into normalized work periods, posts them to a Notion database and
    re-queues the periods whose post failed (the version of the script that
    keeps a failures log).

    Conventions of the embedding.
    - A JavaScript [Date] is its time value: a whole number of milliseconds
      of magnitude at most 8.64e15, or Invalid Date (time value NaN);
      building a Date from a Number goes through [TimeClip].  Whole-number
      Numbers are kept in [Z]: on the time values of Dates the sums,
      differences and products the script computes are exact in binary64
      (a sum of a time value and at most 25 minutes stays below 2^53, a
      product of a whole number by 60000 is a multiple of 32).
    - A Number that may carry a fraction (the result of a division) is a
      binary64 [float]; divisions and the seconds-to-milliseconds product
      are the IEEE operations.
    - A log file is newline-delimited JSON.  Its contents are kept as the
      list of its non-empty lines; a line is the JSON record it denotes, or
      text that [JSON.parse] rejects.
    - The two log files can be written: [writeFile] and [appendFile] do
      not fail.  Reading a missing file fails, as in the source. *)

From Stdlib Require Import ZArith QArith Qround Qabs List Bool String Floats Lia Lqa DecimalString.
From Stdlib Require Uint63.
Import ListNotations.
Open Scope Z_scope.

(** ** Host semantics: Numbers and Dates *)

Module JS.

(** The Number nearest to a whole number (exact below 2^53). *)
Definition Number_of_Z (z : Z) : float :=
  SF2Prim (binary_normalize prec emax z 0 false).

(** The exact value of a finite Number; [None] for NaN and ±Infinity. *)
Definition Number_value (x : float) : option Q :=
  match Prim2SF x with
  | S754_zero _ => Some 0%Q
  | S754_finite sg m e =>
      let v := if sg then Zneg m else Zpos m in
      Some (match e with
            | Z0 => inject_Z v
            | Zpos _ => inject_Z (v * 2 ^ e)
            | Zneg p => Qmake v (2 ^ p)%positive
            end)
  | S754_infinity _ | S754_nan => None
  end.

(** [Math.round]: the integer closest to [x], ties towards +∞, that is
    floor(x + 1/2) on the exact value.  Its argument in this program is the
    quotient of a difference of two time values by 60000, a finite Number;
    the last branch is not reached. *)
Definition Math_round (x : float) : Z :=
  match Number_value x with
  | Some q => Qfloor (q + (1 # 2))
  | None => 0
  end.

(** Truncation towards zero ([ToIntegerOrInfinity] on a finite value). *)
Definition Qtruncate (q : Q) : Z :=
  if Qle_bool 0 q then Qfloor q else Qceiling q.

Inductive Date : Type :=
| ValidDate (t : Z)
| InvalidDate.

(** The largest magnitude of a time value. *)
Definition Date_max : Z := 8640000000000000.

(** [TimeClip] on a whole number of milliseconds, as [new Date(n)] applies
    it: beyond ±8.64e15 the result is an Invalid Date. *)
Definition TimeClip (t : Z) : Date :=
  if Z.abs t <=? Date_max then ValidDate t else InvalidDate.

(** [new Date(x)] for a Number [x]: NaN and ±Infinity give an Invalid
    Date, so does a finite value beyond ±8.64e15; otherwise the value is
    truncated to a whole number. *)
Definition new_Date (x : float) : Date :=
  match Number_value x with
  | Some q =>
      if Qle_bool (Qabs q) (inject_Z Date_max) then ValidDate (Qtruncate q)
      else InvalidDate
  | None => InvalidDate
  end.

(** [d.getTime()]: [None] stands for NaN. *)
Definition getTime (d : Date) : option Z :=
  match d with
  | ValidDate t => Some t
  | InvalidDate => None
  end.

(** [a < b] on Dates (false as soon as one side is NaN). *)
Definition Date_ltb (a b : Date) : bool :=
  match a, b with
  | ValidDate x, ValidDate y => x <? y
  | _, _ => false
  end.

End JS.
Import JS.

(** ** Data model *)

Record WorkPeriod : Type := mkWorkPeriod {
  start : Date;
  end_ : Date
}.

Inductive TimerState : Type := idle | work | rest.

Inductive EventKind : Type := startStop | timerFired.

(** [type] is the constant ['transition'] and is left out. *)
Record JsonLogLine : Type := mkJsonLogLine {
  event : EventKind;
  fromState : TimerState;
  toState : TimerState;
  timestamp : float
}.

Record LogLine : Type := mkLogLine {
  stopping : bool;
  date : Date
}.

(** ** Interval normalizer *)

Definition MINUTE : Z := 60 * 1000.
Definition MAX_WORK_PERIOD : Z := 25 * MINUTE.
Definition MIN_WORK_PERIOD : Z := 5 * MINUTE.

(** When a time value is NaN, [duration] and everything computed from it is
    NaN, the comparison [minuteDuration < MIN_WORK_PERIOD] is false, and the
    function returns [new Date(startTimestamp)] with an Invalid end.
    [new Date(startTimestamp)] is the start again, [startTimestamp] being
    the time value of a Date; [new Date(startTimestamp + truncatedDuration)]
    goes through [TimeClip]. *)
Definition normalizeWorkPeriod (start end_ : Date) : option WorkPeriod :=
  match getTime start, getTime end_ with
  | Some startTimestamp, Some endTimestamp =>
      let duration := endTimestamp - startTimestamp in
      let periods := Math_round (Number_of_Z duration / Number_of_Z MINUTE)%float in
      let minuteDuration := periods * MINUTE in
      let truncatedDuration := Z.min minuteDuration MAX_WORK_PERIOD in
      if minuteDuration <? MIN_WORK_PERIOD then None
      else Some (mkWorkPeriod (ValidDate startTimestamp)
                              (TimeClip (startTimestamp + truncatedDuration)))
  | _, _ => Some (mkWorkPeriod start InvalidDate)
  end.

(** ** State reducer *)

(** The loop variables of [getWorkPeriods]; [workEnd] is null between two
    iterations and is not kept. *)
Record ReducerState : Type := mkReducerState {
  workPeriods : list WorkPeriod;
  workStart : option Date
}.

Definition reducer_init : ReducerState := mkReducerState [] None.

(** One iteration of the [for] loop. *)
Definition reducer_step (st : ReducerState) (line : LogLine) : ReducerState :=
  match stopping line, workStart st with
  | true, Some ws =>
      let workEnd := date line in
      let pushed :=
        match normalizeWorkPeriod ws workEnd with
        | Some normalizedPeriod => workPeriods st ++ [normalizedPeriod]
        | None => workPeriods st
        end in
      mkReducerState pushed None
  | false, None => mkReducerState (workPeriods st) (Some (date line))
  | _, _ => st
  end.

Definition getWorkPeriods (log : list LogLine) : list WorkPeriod :=
  workPeriods (fold_left reducer_step log reducer_init).

(** ** Log files, JSON lines and the run-time world *)

(** The text of one log line: a record as [JSON.parse] returns it, or text
    on which [JSON.parse] throws. *)
Inductive Line : Type :=
| JsonText (j : JsonLogLine)
| Malformed.

(** What a Number field reads back as after [JSON.stringify]/[JSON.parse]:
    a finite Number is written in full and read back unchanged (the sign of
    zero is dropped); NaN and ±Infinity are written as [null], which the
    product in [unixToDate] converts to 0. *)
Definition JSON_number (x : float) : float :=
  match Number_value x with
  | Some _ => if is_zero x then 0%float else x
  | None => 0%float
  end.

Definition JSON_stringify (j : JsonLogLine) : Line :=
  JsonText (mkJsonLogLine (event j) (fromState j) (toState j)
                          (JSON_number (timestamp j))).

Inductive Path : Type := resolvedPath | resolvedFailuresPath.

Record WorkNotionDatabasePropertySchema : Type := mkProperties {
  Name_title_text_content : string;
  Working_Time_date_start : string;
  Working_Time_date_end : string
}.

(** The two log files ([None]: the file does not exist) and the requests
    received by [notion.pages.create] so far, oldest first, each with
    whether it resolved. *)
Record World : Type := mkWorld {
  primaryLog : option (list Line);
  failuresLog : option (list Line);
  notionRequests : list (WorkNotionDatabasePropertySchema * bool)
}.

(** How a computation ends: with a value, with an exception, or with
    [process.exit(code)]. *)
Inductive Completion (A : Type) : Type :=
| Returned (a : A)
| Thrown
| Exited (code : Z).
Arguments Returned {A} a.
Arguments Thrown {A}.
Arguments Exited {A} code.

Definition IO (A : Type) : Type := World -> Completion A * World.

Definition ret {A} (a : A) : IO A := fun w => (Returned a, w).

Definition bind {A B} (c : IO A) (k : A -> IO B) : IO B :=
  fun w =>
    match c w with
    | (Returned a, w') => k a w'
    | (Thrown, w') => (Thrown, w')
    | (Exited code, w') => (Exited code, w')
    end.

Definition process_exit {A} (code : Z) : IO A := fun w => (Exited code, w).

(** A computation that does not touch the world. *)
Definition lift {A} (c : Completion A) : IO A := fun w => (c, w).

(** [try { c } catch (error) { handler }] *)
Definition try_catch {A} (c : IO A) (handler : IO A) : IO A :=
  fun w =>
    match c w with
    | (Thrown, w') => handler w'
    | r => r
    end.

Declare Scope io_scope.
Delimit Scope io_scope with io.
Notation "x <- c ;; k" := (bind c (fun x => k))
  (at level 61, c at next level, right associativity) : io_scope.
Notation "c ;; k" := (bind c (fun _ => k))
  (at level 61, right associativity) : io_scope.
Open Scope io_scope.

(** [for (const x of xs) { body x }] *)
Fixpoint forEach {A} (xs : list A) (body : A -> IO unit) : IO unit :=
  match xs with
  | [] => ret tt
  | x :: others => body x ;; forEach others body
  end.

Definition file (p : Path) (w : World) : option (list Line) :=
  match p with
  | resolvedPath => primaryLog w
  | resolvedFailuresPath => failuresLog w
  end.

Definition set_file (p : Path) (content : list Line) (w : World) : World :=
  match p with
  | resolvedPath => mkWorld (Some content) (failuresLog w) (notionRequests w)
  | resolvedFailuresPath => mkWorld (primaryLog w) (Some content) (notionRequests w)
  end.

Definition existsSync (p : Path) : IO bool :=
  fun w => (Returned (match file p w with Some _ => true | None => false end), w).

Definition readFile (p : Path) : IO (list Line) :=
  fun w =>
    match file p w with
    | Some content => (Returned content, w)
    | None => (Thrown, w)
    end.

(** [promises.writeFile] on a file that can be written (it creates the file
    when missing); a write that the file system refuses is not part of
    this world. *)
Definition writeFile (p : Path) (content : list Line) : IO unit :=
  fun w => (Returned tt, set_file p content w).

(** [promises.appendFile], under the same assumption. *)
Definition appendFile (p : Path) (lines : list Line) : IO unit :=
  fun w =>
    let old := match file p w with Some content => content | None => [] end in
    (Returned tt, set_file p (old ++ lines) w).

(** ** Parser *)

Definition JSON_parse (line : Line) : Completion JsonLogLine :=
  match line with
  | JsonText j => Returned j
  | Malformed => Thrown
  end.

Definition unixToDate (unixTimestamp : float) : Date :=
  new_Date (unixTimestamp * 1000)%float.

Definition parseLogLine (line : Line) : Completion LogLine :=
  match JSON_parse line with
  | Returned jsonLine =>
      let date := unixToDate (timestamp jsonLine) in
      let stopping :=
        match toState jsonLine with
        | idle | rest => true
        | work => false
        end in
      Returned (mkLogLine stopping date)
  | Thrown => Thrown
  | Exited code => Exited code
  end.

Definition getFileLines (path : Path) : IO (list Line) :=
  try_catch (readFile path) (ret []).

(** [lines.map(parseLogLine)]: the first line that fails to parse throws. *)
Fixpoint map_parseLogLine (lines : list Line) : Completion (list LogLine) :=
  match lines with
  | [] => Returned []
  | line :: others =>
      match parseLogLine line with
      | Returned l =>
          match map_parseLogLine others with
          | Returned ls => Returned (l :: ls)
          | Thrown => Thrown
          | Exited code => Exited code
          end
      | Thrown => Thrown
      | Exited code => Exited code
      end
  end.

Definition parseLog (path : Path) : IO (list LogLine) :=
  lines <- getFileLines path ;;
  lift (map_parseLogLine lines).

(** ** Recovery protocol *)

(** [d.getTime() / 1000] *)
Definition seconds (d : Date) : float :=
  match getTime d with
  | Some t => (Number_of_Z t / 1000)%float
  | None => nan
  end.

(** The two lines of the returned text, in order. *)
Definition getLogLinesFromWorkPeriod (workPeriod : WorkPeriod) : list Line :=
  let startJson := mkJsonLogLine startStop idle work (seconds (start workPeriod)) in
  let endJson := mkJsonLogLine startStop work idle (seconds (end_ workPeriod)) in
  [JSON_stringify startJson; JSON_stringify endJson].

Definition checkForFailures (failureLogPath : Path) : IO (option (list LogLine)) :=
  exists_ <- existsSync failureLogPath ;;
  if negb exists_ then ret None
  else
    lines <- getFileLines failureLogPath ;;
    if (Z.of_nat (List.length lines) =? 0) then ret None
    else
      logLines <- parseLog failureLogPath ;;
      writeFile failureLogPath [] ;;
      ret (Some logLines).

(** ** Delivery pipeline *)

Section Pipeline.

(** Host functions and the Sink.  [notion_pages_create] decides, from the
    requests made so far and the record at hand, whether the call
    resolves. *)
Variable Number_toString : float -> string.
Variable toISOString : Z -> string.
Variable notion_pages_create :
  list (WorkNotionDatabasePropertySchema * bool) ->
  WorkNotionDatabasePropertySchema -> bool.

(** [toISOString] throws a RangeError on an Invalid Date. *)
Definition createWorkProperty (wp : WorkPeriod)
  : Completion WorkNotionDatabasePropertySchema :=
  match start wp, end_ wp with
  | ValidDate s, ValidDate e =>
      let startISO := toISOString s in
      let endISO := toISOString e in
      let minuteDuration := (Number_of_Z (e - s) / 1000 / 60)%float in
      let titleContent := ("⏳ " ++ Number_toString minuteDuration)%string in
      Returned (mkProperties titleContent startISO endISO)
  | _, _ => Thrown
  end.

Definition notion_create (properties : WorkNotionDatabasePropertySchema)
  : IO unit :=
  fun w =>
    let ok := notion_pages_create (notionRequests w) properties in
    let w' := mkWorld (primaryLog w) (failuresLog w)
                      (notionRequests w ++ [(properties, ok)]) in
    (if ok then Returned tt else Thrown, w').

Definition postWorkPeriod (workPeriod : WorkPeriod) : IO unit :=
  properties <- lift (createWorkProperty workPeriod) ;;
  notion_create properties.

(** The first statements of the main routine: read both logs and merge. *)
Definition readLogs : IO (list LogLine) :=
  logLines <- parseLog resolvedPath ;;
  failures <- checkForFailures resolvedFailuresPath ;;
  ret (match failures with
       | Some fs => logLines ++ fs
       | None => logLines
       end).

(** The body of the delivery loop. *)
Definition postOrRequeue (workPeriod : WorkPeriod) : IO unit :=
  try_catch (postWorkPeriod workPeriod)
            (appendFile resolvedFailuresPath
                        (getLogLinesFromWorkPeriod workPeriod)).

(** The main routine, once the five environment variables it needs have
    been found set (the script exits with code 1 before reading anything
    when one is not). *)
Definition main : IO unit :=
  logLines <- readLogs ;;
  if (Z.of_nat (List.length logLines) =? 0) then process_exit 1
  else if negb (stopping (last logLines (mkLogLine false InvalidDate)))
  then process_exit 0
  else
    let workPeriods := getWorkPeriods logLines in
    forEach workPeriods postOrRequeue ;;
    writeFile resolvedPath [] ;;
    ret tt.

End Pipeline.

(** ** Inputs used in the examples below *)

Definition minutes (n : Z) : Z := n * MINUTE.

Definition work_open (t : Z) : LogLine := mkLogLine false (ValidDate t).
Definition idle_close (t : Z) : LogLine := mkLogLine true (ValidDate t).



(** ** Predicates and derived notions used in the statements *)


(** The open start, if any, is a valid time that satisfies [R]. *)
Definition open_start_in (R : Z -> Prop) (st : ReducerState) : Prop :=
  match workStart st with
  | Some (ValidDate t) => R t
  | Some InvalidDate => False
  | None => True
  end.


Definition file_lines (f : option (list Line)) : list Line :=
  match f with
  | Some content => content
  | None => []
  end.

(** The recovery log truncated, everything else as in [w]. *)
Definition recovery_cleared (w : World) : World :=
  mkWorld (primaryLog w) (Some []) (notionRequests w).

(** The records of the periods whose record can be built, in order. *)
Definition delivery_records
    (Number_toString : float -> string) (toISOString : Z -> string)
    (batch : list WorkPeriod) : list WorkNotionDatabasePropertySchema :=
  flat_map (fun wp =>
              match createWorkProperty Number_toString toISOString wp with
              | Returned properties => [properties]
              | _ => []
              end) batch.

(** The world after two lines for [wp] were appended to the recovery log. *)
Definition requeued (wp : WorkPeriod) (w : World) : World :=
  mkWorld (primaryLog w)
          (Some (file_lines (failuresLog w) ++
                 [JsonText (mkJsonLogLine startStop idle work
                              (JSON_number (seconds (start wp))));
                  JsonText (mkJsonLogLine startStop work idle
                              (JSON_number (seconds (end_ wp))))]))
          (notionRequests w).

Definition requested (properties : WorkNotionDatabasePropertySchema)
    (ok : bool) (w : World) : World :=
  mkWorld (primaryLog w) (failuresLog w)
          (notionRequests w ++ [(properties, ok)]).

(** The Date that parseLogLine reads from the line that
    getLogLinesFromWorkPeriod writes for [d]. *)
Definition reread (d : Date) : Date :=
  unixToDate (JSON_number (seconds d)).

(** ** Closed inputs *)

(** Stand-ins for the host's string conversions and for the Sink in the
    closed runs; the theorems hold for any choice. *)
Definition decimal_Number_toString (x : float) : string :=
  NilZero.string_of_int (Z.to_int (Math_round x)).

Definition decimal_toISOString (t : Z) : string :=
  NilZero.string_of_int (Z.to_int t).

Definition sink_rejects_all
    (history : list (WorkNotionDatabasePropertySchema * bool))
    (properties : WorkNotionDatabasePropertySchema) : bool := false.

Definition sink_accepts_all
    (history : list (WorkNotionDatabasePropertySchema * bool))
    (properties : WorkNotionDatabasePropertySchema) : bool := true.

Definition transition (from to : TimerState) (unixSeconds : float) : Line :=
  JsonText (mkJsonLogLine startStop from to unixSeconds).

(** The primary log of the end-to-end scenario: work opened at 100 s and
    closed 650 s later; no recovery log yet. *)
Definition scenario_world : World :=
  mkWorld (Some [transition idle work 100; transition work idle 750]) None [].

(** A work period still running. *)
Definition in_progress_world : World :=
  mkWorld (Some [transition idle work 100]) None [].

(** A finished period in the primary log and an older re-queued one in the
    recovery log. *)
Definition recovery_world : World :=
  mkWorld (Some [transition idle work 2000; transition work idle 2600])
          (Some [transition idle work 100; transition work idle 760]) [].

(** ** Further notions used in the statements *)

(** The sign carried by a binary64 value (NaN carries none). *)
Definition signed_as (s : bool) (f : spec_float) : Prop :=
  match f with
  | S754_finite s' _ _ => s' = s
  | S754_infinity s' => s' = s
  | S754_zero s' => s' = s
  | S754_nan => True
  end.

Definition count_stopping (log : list LogLine) : nat :=
  List.length (filter stopping log).

Definition count_opening (log : list LogLine) : nat :=
  List.length (filter (fun line => negb (stopping line)) log).

(** 1 when the reducer has an interval open, 0 otherwise. *)
Definition open_count (st : ReducerState) : nat :=
  match workStart st with
  | Some _ => 1%nat
  | None => 0%nat
  end.

(** [wp] is what the normalizer makes of an opening line and a stopping
    line of [log]. *)
Definition paired_in (log : list LogLine) (wp : WorkPeriod) : Prop :=
  exists opening closing,
    In opening log /\ In closing log /\
    stopping opening = false /\ stopping closing = true /\
    normalizeWorkPeriod (date opening) (date closing) = Some wp.

(** A time value that leaves room for the longest period: a period
    starting there cannot end beyond the Date range. *)
Definition leaves_room (t : Z) : Prop :=
  - Date_max <= t <= Date_max - MAX_WORK_PERIOD.

(** Every line carries such a time. *)
Definition dates_leave_room (log : list LogLine) : Prop :=
  Forall (fun line => exists t, date line = ValidDate t /\ leaves_room t) log.

(** Both dates of the period are valid times. *)
Definition has_valid_dates (wp : WorkPeriod) : Prop :=
  exists s e, start wp = ValidDate s /\ end_ wp = ValidDate e.

(** The number of requests that the Sink accepted. *)
Definition accepted
    (requests : list (WorkNotionDatabasePropertySchema * bool)) : nat :=
  List.length (filter snd requests).

(** A sequence on which the reducer ends with no interval open: it is empty
    or its last line is a stopping line. *)
Definition ends_closed (log : list LogLine) : Prop :=
  log = [] \/ exists init final, log = init ++ [final] /\ stopping final = true.

(** The two LogLines read back from the lines written for [wp]. *)
Definition reread_lines (wp : WorkPeriod) : list LogLine :=
  [mkLogLine false (reread (start wp)); mkLogLine true (reread (end_ wp))].

(** A period as the normalizer returns it from valid times, whose two time
    values survive the conversion to seconds and back. *)
Definition requeues_exactly (wp : WorkPeriod) : Prop :=
  exists s k, 5 <= k <= 25 /\
              wp = mkWorkPeriod (ValidDate s) (ValidDate (s + k * MINUTE)) /\
              reread (ValidDate s) = ValidDate s /\
              reread (ValidDate (s + k * MINUTE)) = ValidDate (s + k * MINUTE).

(** * Properties *)

(** ** Normalizer *)

Lemma Math_round_half_up (x : float) (q : Q) :
  Number_value x = Some q ->
  (inject_Z (Math_round x) - (1 # 2) <= q)%Q /\
  (q < inject_Z (Math_round x) + (1 # 2))%Q.
Proof.
  intros Hx. unfold Math_round. rewrite Hx.
  pose proof (Qfloor_le (q + (1 # 2))) as Hle.
  pose proof (Qlt_floor (q + (1 # 2))) as Hlt.
  rewrite inject_Z_plus in Hlt.
  set (n := inject_Z (Qfloor (q + (1 # 2)))) in *.
  change (inject_Z 1) with 1%Q in Hlt.
  split; lra.
Qed.

Lemma TimeClip_in_range (t : Z) :
  - Date_max <= t <= Date_max -> TimeClip t = ValidDate t.
Proof.
  intros Ht. unfold TimeClip.
  destruct (Z.abs t <=? Date_max) eqn:Hle; [reflexivity |].
  apply Z.leb_gt in Hle. lia.
Qed.

Lemma TimeClip_beyond_range (t : Z) :
  Date_max < Z.abs t -> TimeClip t = InvalidDate.
Proof.
  intros Ht. unfold TimeClip.
  destruct (Z.abs t <=? Date_max) eqn:Hle; [| reflexivity].
  apply Z.leb_le in Hle. lia.
Qed.

Lemma TimeClip_valid (t u : Z) :
  TimeClip t = ValidDate u -> u = t /\ - Date_max <= t <= Date_max.
Proof.
  unfold TimeClip.
  destruct (Z.abs t <=? Date_max) eqn:Hle; [| discriminate].
  intros [= <-]. apply Z.leb_le in Hle. lia.
Qed.

Lemma TimeClip_cases (t : Z) :
  TimeClip t = ValidDate t \/ TimeClip t = InvalidDate.
Proof. unfold TimeClip. destruct (Z.abs t <=? Date_max); auto. Qed.

Lemma normalizeWorkPeriod_valid (s e : Z) :
  normalizeWorkPeriod (ValidDate s) (ValidDate e) =
    let periods := Math_round (Number_of_Z (e - s) / Number_of_Z 60000)%float in
    let quantized := periods * 60000 in
    if quantized <? 5 * 60000 then None
    else Some (mkWorkPeriod (ValidDate s)
                            (TimeClip (s + Z.min quantized (25 * 60000)))).
Proof. reflexivity. Qed.

(** C1 (as amended): on valid times, normalizeWorkPeriod rounds the
    quotient (end - start) / 60000 to the nearest whole number of periods
    with ties going up, multiplies back to [quantized], returns null when
    [quantized < 5 * 60000] and otherwise a period that keeps [start] and
    ends at [new Date(start + min(quantized, 25 * 60000))]: that is the
    time [start + min(quantized, 25 * 60000)] when it lies within the Date
    range of ±8.64e15 ms, and an Invalid Date when it lies beyond.
    (0,3min) is dropped, (0,5min) is kept as it is, (0,30min) becomes
    (0,25min), (0,7.6min) becomes (0,8min); the tie 4.5min goes up to 5min
    and is kept. *)
Theorem normalizeWorkPeriod_spec :
  (forall s e : Z,
      let quotient := (Number_of_Z (e - s) / Number_of_Z 60000)%float in
      let periods := Math_round quotient in
      let quantized := periods * 60000 in
      - Date_max <= s + Z.min quantized (25 * 60000) <= Date_max ->
      normalizeWorkPeriod (ValidDate s) (ValidDate e) =
        if quantized <? 5 * 60000 then None
        else Some (mkWorkPeriod (ValidDate s)
                                (ValidDate (s + Z.min quantized (25 * 60000)))))
  /\ (forall s e : Z,
         let quotient := (Number_of_Z (e - s) / Number_of_Z 60000)%float in
         let periods := Math_round quotient in
         let quantized := periods * 60000 in
         Date_max < Z.abs (s + Z.min quantized (25 * 60000)) ->
         normalizeWorkPeriod (ValidDate s) (ValidDate e) =
           if quantized <? 5 * 60000 then None
           else Some (mkWorkPeriod (ValidDate s) InvalidDate))
  /\ (forall (x : float) (q : Q),
         Number_value x = Some q ->
         (inject_Z (Math_round x) - (1 # 2) <= q)%Q /\
         (q < inject_Z (Math_round x) + (1 # 2))%Q)
  /\ normalizeWorkPeriod (ValidDate 0) (ValidDate (minutes 3)) = None
  /\ normalizeWorkPeriod (ValidDate 0) (ValidDate (minutes 5)) =
       Some (mkWorkPeriod (ValidDate 0) (ValidDate (minutes 5)))
  /\ normalizeWorkPeriod (ValidDate 0) (ValidDate (minutes 30)) =
       Some (mkWorkPeriod (ValidDate 0) (ValidDate (minutes 25)))
  /\ normalizeWorkPeriod (ValidDate 0) (ValidDate 456000) =
       Some (mkWorkPeriod (ValidDate 0) (ValidDate (minutes 8)))
  /\ normalizeWorkPeriod (ValidDate 0) (ValidDate 270000) =
       Some (mkWorkPeriod (ValidDate 0) (ValidDate (minutes 5)))
  /\ normalizeWorkPeriod (ValidDate 0) (ValidDate 269999) = None.
Proof.
  split; [| split; [| split]].
  - intros s e quotient periods quantized Hrange.
    rewrite normalizeWorkPeriod_valid. cbv zeta.
    fold quotient. fold periods. fold quantized.
    now rewrite (TimeClip_in_range _ Hrange).
  - intros s e quotient periods quantized Hbeyond.
    rewrite normalizeWorkPeriod_valid. cbv zeta.
    fold quotient. fold periods. fold quantized.
    now rewrite (TimeClip_beyond_range _ Hbeyond).
  - exact Math_round_half_up.
  - repeat split; vm_compute; reflexivity.
Qed.

Lemma normalizeWorkPeriod_spec_witness :
  - Date_max <= 0 + Z.min (8 * 60000) (25 * 60000) <= Date_max /\
  normalizeWorkPeriod (ValidDate 0) (ValidDate 456000) =
    Some (mkWorkPeriod (ValidDate 0)
                       (ValidDate (0 + Z.min (8 * 60000) (25 * 60000)))).
Proof.
  assert (H : - Date_max <= 0 + Z.min (8 * 60000) (25 * 60000) <= Date_max)
    by (vm_compute; split; discriminate).
  split; [exact H |].
  assert (Hp : Math_round (Number_of_Z (456000 - 0) / Number_of_Z 60000) = 8)
    by (vm_compute; reflexivity).
  pose proof (proj1 normalizeWorkPeriod_spec 0 456000) as Hspec.
  cbv zeta in Hspec. rewrite Hp in Hspec. exact (Hspec H).
Defined.

(** The claim C1 as stated fails at the end of the Date range: for the two
    Dates 8639999999430000 and 8640000000000000 (9.5 minutes apart, rounded
    up to 10) the returned end is an Invalid Date, not the time
    start + min(quantized, 25 * 60000). *)
Lemma normalizeWorkPeriod_end_beyond_date_range :
  Z.abs 8639999999430000 <= Date_max /\
  Z.abs 8640000000000000 <= Date_max /\
  normalizeWorkPeriod (ValidDate 8639999999430000) (ValidDate 8640000000000000) =
    Some (mkWorkPeriod (ValidDate 8639999999430000) InvalidDate) /\
  normalizeWorkPeriod (ValidDate 8639999999430000) (ValidDate 8640000000000000) <>
    (let periods :=
       Math_round (Number_of_Z (8640000000000000 - 8639999999430000) /
                   Number_of_Z 60000)%float in
     let quantized := periods * 60000 in
     if quantized <? 5 * 60000 then None
     else Some (mkWorkPeriod
                  (ValidDate 8639999999430000)
                  (ValidDate (8639999999430000 + Z.min quantized (25 * 60000))))).
Proof.
  split; [vm_compute; discriminate |].
  split; [vm_compute; discriminate |].
  split; [vm_compute; reflexivity |].
  vm_compute. discriminate.
Qed.

Lemma Math_round_whole_minutes (k : Z) :
  0 <= k <= 25 ->
  Math_round (Number_of_Z (k * MINUTE) / Number_of_Z MINUTE)%float = k.
Proof.
  intros Hk. rewrite <- (Z2Nat.id k) by lia.
  assert (Hn : (Z.to_nat k <= 25)%nat) by lia.
  revert Hn. generalize (Z.to_nat k) as n. intros n Hn.
  do 26 (destruct n as [|n]; [vm_compute; reflexivity|]). lia.
Qed.

(** What a returned period looks like when both times are valid: the start
    is kept and the end is built from the start plus a whole number of
    minutes between 5 and 25. *)
Lemma normalizeWorkPeriod_valid_shape (s e : Z) (p : WorkPeriod) :
  normalizeWorkPeriod (ValidDate s) (ValidDate e) = Some p ->
  exists k, 5 <= k <= 25 /\
            p = mkWorkPeriod (ValidDate s) (TimeClip (s + k * MINUTE)).
Proof.
  rewrite normalizeWorkPeriod_valid. cbv zeta.
  set (periods := Math_round _).
  destruct (periods * 60000 <? 5 * 60000) eqn:Hlow; [discriminate |].
  intros [= <-]. apply Z.ltb_ge in Hlow.
  exists (Z.min periods 25). split; [lia |].
  unfold MINUTE. do 3 f_equal. lia.
Qed.

Lemma normalizeWorkPeriod_whole_minutes (s k : Z) :
  5 <= k <= 25 ->
  normalizeWorkPeriod (ValidDate s) (ValidDate (s + k * MINUTE)) =
    Some (mkWorkPeriod (ValidDate s) (TimeClip (s + k * MINUTE))).
Proof.
  intros Hk. rewrite normalizeWorkPeriod_valid. cbv zeta.
  replace (s + k * MINUTE - s) with (k * MINUTE) by lia.
  change 60000 with MINUTE.
  rewrite Math_round_whole_minutes by lia.
  unfold MINUTE.
  destruct (k * (60 * 1000) <? 5 * (60 * 1000)) eqn:Hlow.
  - apply Z.ltb_lt in Hlow. lia.
  - do 3 f_equal. lia.
Qed.

Lemma normalizeWorkPeriod_fixed (start0 end0 : Date) (p : WorkPeriod) :
  normalizeWorkPeriod start0 end0 = Some p ->
  normalizeWorkPeriod (start p) (end_ p) = Some p.
Proof.
  destruct start0 as [s|], end0 as [e|].
  - intros H. apply normalizeWorkPeriod_valid_shape in H.
    destruct H as (k & Hk & ->). cbn [start end_].
    destruct (TimeClip_cases (s + k * MINUTE)) as [Hclip | Hclip];
      rewrite Hclip; [| reflexivity].
    rewrite normalizeWorkPeriod_whole_minutes by exact Hk.
    now rewrite Hclip.
  - intros [= <-]. reflexivity.
  - intros [= <-]. reflexivity.
  - intros [= <-]. reflexivity.
Qed.

(** C10: normalizing a period that normalizeWorkPeriod returned gives the
    same period back. *)
Theorem normalizeWorkPeriod_idempotent (start0 end0 : Date) (p : WorkPeriod) :
  normalizeWorkPeriod start0 end0 = Some p ->
  normalizeWorkPeriod (start p) (end_ p) = Some p.
Proof.
  intros Hn. destruct start0 as [s|], end0 as [e|].
  - destruct (normalizeWorkPeriod_valid_shape s e p Hn) as (k & Hk & ->).
    cbn [start end_].
    destruct (TimeClip_cases (s + k * MINUTE)) as [Hclip | Hclip];
      rewrite Hclip; [| reflexivity].
    rewrite normalizeWorkPeriod_valid. cbv zeta.
    replace (s + k * MINUTE - s) with (k * MINUTE) by lia.
    change 60000 with MINUTE.
    rewrite Math_round_whole_minutes by lia.
    unfold MINUTE in *.
    destruct (k * (60 * 1000) <? 5 * (60 * 1000)) eqn:Hlow.
    + apply Z.ltb_lt in Hlow. lia.
    + replace (Z.min (k * (60 * 1000)) (25 * (60 * 1000)))
        with (k * (60 * 1000)) by lia.
      now rewrite Hclip.
  - injection Hn as <-. reflexivity.
  - injection Hn as <-. reflexivity.
  - injection Hn as <-. reflexivity.
Qed.

Lemma normalizeWorkPeriod_idempotent_witness :
  normalizeWorkPeriod (ValidDate 0) (ValidDate 456000) =
    Some (mkWorkPeriod (ValidDate 0) (ValidDate 480000)) /\
  normalizeWorkPeriod (ValidDate 0) (ValidDate 480000) =
    Some (mkWorkPeriod (ValidDate 0) (ValidDate 480000)).
Proof.
  split.
  - vm_compute; reflexivity.
  - apply (normalizeWorkPeriod_idempotent (ValidDate 0) (ValidDate 456000)
             (mkWorkPeriod (ValidDate 0) (ValidDate 480000))).
    vm_compute; reflexivity.
Defined.

(** ** Reducer *)



Lemma reducer_step_emits (R : Z -> Prop) (P : WorkPeriod -> Prop)
    (st : ReducerState) (line : LogLine) (t : Z) :
  (forall s e p, R s -> normalizeWorkPeriod (ValidDate s) (ValidDate e) = Some p ->
                 P p) ->
  date line = ValidDate t -> R t ->
  open_start_in R st ->
  Forall P (workPeriods st) ->
  open_start_in R (reducer_step st line) /\
  Forall P (workPeriods (reducer_step st line)).
Proof.
  intros Hnorm Hdate Ht Hopen Hall. unfold reducer_step, open_start_in in *.
  rewrite Hdate.
  destruct (stopping line), (workStart st) as [[s|]|] eqn:Hws;
    cbn [workStart workPeriods]; rewrite ?Hws;
    try (split; [exact I | assumption]); try contradiction;
    try (split; assumption).
  destruct (normalizeWorkPeriod (ValidDate s) (ValidDate t)) as [p|] eqn:Hn.
  - split; [exact I |]. apply Forall_app. split; [assumption |].
    constructor; [| constructor]. exact (Hnorm s t p Hopen Hn).
  - split; [exact I | assumption].
Qed.

Lemma fold_reducer_emits (R : Z -> Prop) (P : WorkPeriod -> Prop)
    (log : list LogLine) :
  (forall s e p, R s -> normalizeWorkPeriod (ValidDate s) (ValidDate e) = Some p ->
                 P p) ->
  Forall (fun line => exists t, date line = ValidDate t /\ R t) log ->
  forall st : ReducerState,
    open_start_in R st ->
    Forall P (workPeriods st) ->
    Forall P (workPeriods (fold_left reducer_step log st)).
Proof.
  intros Hnorm. induction 1 as [|line others (t & Hdate & Ht) _ IH];
    intros st Hopen Hall; [exact Hall |].
  cbn [fold_left].
  destruct (reducer_step_emits R P st line t Hnorm Hdate Ht Hopen Hall)
    as [Ho Ha].
  exact (IH _ Ho Ha).
Qed.






Lemma getWorkPeriods_second_open_ignored (t0 t5 t10 : Date) :
  getWorkPeriods [mkLogLine false t0; mkLogLine false t5; mkLogLine true t10] =
    match normalizeWorkPeriod t0 t10 with
    | Some p => [p]
    | None => []
    end.
Proof.
  unfold getWorkPeriods. cbn [fold_left reducer_step reducer_init stopping
                              workStart workPeriods date].
  destruct (normalizeWorkPeriod t0 t10); reflexivity.
Qed.

(** C4: the reducer keeps at most one interval open (its state holds one
    optional start); a non-stopping line met while an interval is open
    leaves the state as it is, a stopping line met while none is open
    leaves the state as it is, and an open start only ever comes from a
    non-stopping line met while none was open.  work-open@t0,
    work-open@t0+5min, idle@t0+10min gives the single period whose start
    is t0 and whose end is the Date built from t0+10min: the period
    (t0, t0+10min) whenever t0+10min is the time of a Date (within the
    Date range), as the third line's date is. *)
Theorem reducer_single_open_interval :
  (forall (st : ReducerState) (line : LogLine) (ws : Date),
      workStart st = Some ws -> stopping line = false ->
      reducer_step st line = st)
  /\ (forall (st : ReducerState) (line : LogLine),
         workStart st = None -> stopping line = true ->
         reducer_step st line = st)
  /\ (forall (st : ReducerState) (line : LogLine) (d : Date),
         workStart (reducer_step st line) = Some d ->
         workStart st = Some d \/
         (workStart st = None /\ stopping line = false /\ date line = d))
  /\ (forall t0 t5 t10 : Date,
         getWorkPeriods [mkLogLine false t0; mkLogLine false t5;
                         mkLogLine true t10] =
           getWorkPeriods [mkLogLine false t0; mkLogLine true t10])
  /\ (forall t0 : Z,
         getWorkPeriods [work_open t0; work_open (t0 + minutes 5);
                         idle_close (t0 + minutes 10)] =
           [mkWorkPeriod (ValidDate t0) (TimeClip (t0 + minutes 10))])
  /\ (forall t0 : Z,
         - Date_max <= t0 + minutes 10 <= Date_max ->
         getWorkPeriods [work_open t0; work_open (t0 + minutes 5);
                         idle_close (t0 + minutes 10)] =
           [mkWorkPeriod (ValidDate t0) (ValidDate (t0 + minutes 10))]).
Proof.
  split; [| split; [| split; [| split; [| split]]]].
  - intros st line ws Hws Hstop. unfold reducer_step. now rewrite Hstop, Hws.
  - intros st line Hws Hstop. unfold reducer_step. now rewrite Hstop, Hws.
  - intros st line d. unfold reducer_step.
    destruct (stopping line), (workStart st) as [ws|] eqn:Hws;
      cbn [workStart]; rewrite ?Hws; intros H;
      try discriminate; auto.
    injection H as <-. right. auto.
  - intros t0 t5 t10. rewrite getWorkPeriods_second_open_ignored.
    unfold getWorkPeriods. cbn [fold_left reducer_step reducer_init stopping
                                workStart workPeriods date].
    destruct (normalizeWorkPeriod t0 t10); reflexivity.
  - intros t0. unfold work_open, idle_close.
    rewrite getWorkPeriods_second_open_ignored.
    change (minutes 10) with (10 * MINUTE) in *.
    now rewrite normalizeWorkPeriod_whole_minutes by lia.
  - intros t0 Hrange. unfold work_open, idle_close.
    rewrite getWorkPeriods_second_open_ignored.
    change (minutes 10) with (10 * MINUTE) in *.
    rewrite normalizeWorkPeriod_whole_minutes by lia.
    now rewrite (TimeClip_in_range _ Hrange).
Qed.

(** ** Reading the logs *)

Lemma getFileLines_spec (p : Path) (w : World) :
  getFileLines p w = (Returned (file_lines (file p w)), w).
Proof.
  unfold getFileLines, try_catch, readFile, ret.
  destruct (file p w); reflexivity.
Qed.

Lemma parseLog_spec (p : Path) (w : World) :
  parseLog p w = (map_parseLogLine (file_lines (file p w)), w).
Proof.
  unfold parseLog, bind, lift. rewrite getFileLines_spec. reflexivity.
Qed.

Lemma checkForFailures_nothing (w : World) :
  file_lines (failuresLog w) = [] ->
  checkForFailures resolvedFailuresPath w = (Returned None, w).
Proof.
  intros Hempty. unfold checkForFailures, bind, existsSync. cbn [file].
  destruct (failuresLog w) as [content|] eqn:Hf; cbn [negb]; [| reflexivity].
  rewrite getFileLines_spec. cbn [file]. rewrite Hf.
  cbn [file_lines] in *. subst content. reflexivity.
Qed.

Lemma checkForFailures_some (w : World) (lines : list Line) :
  failuresLog w = Some lines -> lines <> [] ->
  checkForFailures resolvedFailuresPath w =
    match map_parseLogLine lines with
    | Returned recovered => (Returned (Some recovered), recovery_cleared w)
    | Thrown => (Thrown, w)
    | Exited code => (Exited code, w)
    end.
Proof.
  intros Hf Hne. unfold checkForFailures, bind, existsSync. cbn [file].
  rewrite Hf. cbn [negb]. rewrite getFileLines_spec. cbn [file].
  rewrite Hf. cbn [file_lines].
  destruct lines as [|line others]; [contradiction |].
  cbn [List.length]. rewrite Nat2Z.inj_succ.
  destruct (Z.succ (Z.of_nat (List.length others)) =? 0) eqn:Hz;
    [apply Z.eqb_eq in Hz; lia |].
  rewrite parseLog_spec. cbn [file]. rewrite Hf. cbn [file_lines].
  destruct (map_parseLogLine (line :: others)); reflexivity.
Qed.

Lemma readLogs_spec (w : World) :
  readLogs w =
    match map_parseLogLine (file_lines (primaryLog w)) with
    | Returned primary =>
        match file_lines (failuresLog w) with
        | [] => (Returned primary, w)
        | line :: others =>
            match map_parseLogLine (line :: others) with
            | Returned recovered =>
                (Returned (primary ++ recovered), recovery_cleared w)
            | Thrown => (Thrown, w)
            | Exited code => (Exited code, w)
            end
        end
    | Thrown => (Thrown, w)
    | Exited code => (Exited code, w)
    end.
Proof.
  unfold readLogs. unfold bind at 1. rewrite parseLog_spec. cbn [file].
  destruct (map_parseLogLine (file_lines (primaryLog w))) as [primary| |code];
    try reflexivity.
  unfold bind.
  destruct (file_lines (failuresLog w)) as [|line others] eqn:Hlines.
  - rewrite checkForFailures_nothing by assumption. reflexivity.
  - destruct (failuresLog w) as [content|] eqn:Hf; [| discriminate].
    cbn [file_lines] in Hlines. subst content.
    rewrite (checkForFailures_some w (line :: others)) by (congruence).
    destruct (map_parseLogLine (line :: others)); reflexivity.
Qed.

Lemma readLogs_frame (w w1 : World) (r : Completion (list LogLine)) :
  readLogs w = (r, w1) ->
  primaryLog w1 = primaryLog w /\ notionRequests w1 = notionRequests w.
Proof.
  rewrite readLogs_spec.
  destruct (map_parseLogLine (file_lines (primaryLog w)));
    destruct (file_lines (failuresLog w));
    try destruct (map_parseLogLine (_ :: _));
    intros [= _ <-]; split; reflexivity.
Qed.

(** C7: the recovery loader contributes no lines when the recovery log is
    missing or has no lines, and leaves the world as it is; otherwise it
    parses the recovery lines, truncates the recovery log, and the merged
    sequence is the primary log's lines followed by the recovered ones. *)
Theorem recovery_loader :
  (forall w : World,
      failuresLog w = None \/ failuresLog w = Some [] ->
      checkForFailures resolvedFailuresPath w = (Returned None, w)
      /\ forall primary : list LogLine,
          map_parseLogLine (file_lines (primaryLog w)) = Returned primary ->
          readLogs w = (Returned primary, w))
  /\ (forall (w : World) (lines : list Line) (recovered : list LogLine),
         failuresLog w = Some lines -> lines <> [] ->
         map_parseLogLine lines = Returned recovered ->
         checkForFailures resolvedFailuresPath w =
           (Returned (Some recovered),
            mkWorld (primaryLog w) (Some []) (notionRequests w))
         /\ forall primary : list LogLine,
             map_parseLogLine (file_lines (primaryLog w)) = Returned primary ->
             readLogs w =
               (Returned (primary ++ recovered),
                mkWorld (primaryLog w) (Some []) (notionRequests w))).
Proof.
  split.
  - intros w Hnone.
    assert (Hlines : file_lines (failuresLog w) = [])
      by (destruct Hnone as [-> | ->]; reflexivity).
    split; [now apply checkForFailures_nothing |].
    intros primary Hp. rewrite readLogs_spec, Hp, Hlines. reflexivity.
  - intros w lines recovered Hf Hne Hrec. split.
    + rewrite (checkForFailures_some w lines Hf Hne), Hrec. reflexivity.
    + intros primary Hp. rewrite readLogs_spec, Hp, Hf. cbn [file_lines].
      destruct lines as [|line others]; [contradiction |].
      rewrite Hrec. reflexivity.
Qed.

(** ** Delivery *)

Section PipelineProperties.

Variable Number_toString : float -> string.
Variable toISOString : Z -> string.
Variable notion_pages_create :
  list (WorkNotionDatabasePropertySchema * bool) ->
  WorkNotionDatabasePropertySchema -> bool.

Local Abbreviation record_of := (createWorkProperty Number_toString toISOString).
Local Abbreviation post :=
  (postWorkPeriod Number_toString toISOString notion_pages_create).
Local Abbreviation post_or_requeue :=
  (postOrRequeue Number_toString toISOString notion_pages_create).
Local Abbreviation run := (main Number_toString toISOString notion_pages_create).
Local Abbreviation records := (delivery_records Number_toString toISOString).

Lemma createWorkProperty_never_exits (wp : WorkPeriod) (code : Z) :
  record_of wp <> Exited code.
Proof.
  unfold createWorkProperty.
  destruct (start wp), (end_ wp); discriminate.
Qed.

Lemma postWorkPeriod_spec (wp : WorkPeriod) (w : World) :
  post wp w =
    match record_of wp with
    | Returned properties =>
        let ok := notion_pages_create (notionRequests w) properties in
        (if ok then Returned tt else Thrown, requested properties ok w)
    | Thrown => (Thrown, w)
    | Exited code => (Exited code, w)
    end.
Proof.
  unfold postWorkPeriod, bind, lift.
  destruct (record_of wp); reflexivity.
Qed.

Lemma appendFile_requeued (wp : WorkPeriod) (w : World) :
  appendFile resolvedFailuresPath (getLogLinesFromWorkPeriod wp) w =
    (Returned tt, requeued wp w).
Proof. reflexivity. Qed.

Lemma postOrRequeue_spec (wp : WorkPeriod) (w : World) :
  post_or_requeue wp w =
    match record_of wp with
    | Returned properties =>
        if notion_pages_create (notionRequests w) properties
        then (Returned tt, requested properties true w)
        else (Returned tt, requeued wp (requested properties false w))
    | _ => (Returned tt, requeued wp w)
    end.
Proof.
  unfold postOrRequeue, try_catch. rewrite postWorkPeriod_spec.
  destruct (record_of wp) as [properties| |code] eqn:Hrec.
  - cbv zeta.
    destruct (notion_pages_create (notionRequests w) properties);
      [reflexivity | apply appendFile_requeued].
  - apply appendFile_requeued.
  - now apply createWorkProperty_never_exits in Hrec.
Qed.

Lemma forEach_postOrRequeue (batch : list WorkPeriod) :
  forall w : World,
  exists w' : World,
    forEach batch post_or_requeue w = (Returned tt, w') /\
    primaryLog w' = primaryLog w /\
    map fst (notionRequests w') =
      map fst (notionRequests w) ++ records batch.
Proof.
  induction batch as [|wp batch IH]; intros w.
  - exists w. cbn. rewrite app_nil_r. auto.
  - cbn [forEach]. unfold bind. rewrite postOrRequeue_spec.
    unfold delivery_records. cbn [flat_map].
    fold (records batch).
    destruct (record_of wp) as [properties| |code] eqn:Hrec.
    + destruct (notion_pages_create (notionRequests w) properties).
      * destruct (IH (requested properties true w)) as (w' & Hrun & Hp & Hreq).
        exists w'. rewrite Hrun, Hp, Hreq. cbn [requested primaryLog notionRequests].
        rewrite map_app, <- app_assoc. auto.
      * destruct (IH (requeued wp (requested properties false w)))
          as (w' & Hrun & Hp & Hreq).
        exists w'. rewrite Hrun, Hp, Hreq.
        cbn [requeued requested primaryLog notionRequests].
        rewrite map_app, <- app_assoc. auto.
    + destruct (IH (requeued wp w)) as (w' & Hrun & Hp & Hreq).
      exists w'. rewrite Hrun, Hp, Hreq. cbn [requeued primaryLog notionRequests].
      auto.
    + now apply createWorkProperty_never_exits in Hrec.
Qed.

Lemma main_after_readLogs (w w1 : World) (logLines : list LogLine) :
  readLogs w = (Returned logLines, w1) ->
  run w =
    (if (Z.of_nat (List.length logLines) =? 0) then process_exit 1
     else if negb (stopping (last logLines (mkLogLine false InvalidDate)))
     then process_exit 0
     else
       forEach (getWorkPeriods logLines) post_or_requeue ;;
       writeFile resolvedPath [] ;;
       ret tt) w1.
Proof.
  intros Hread. unfold main. unfold bind at 1. rewrite Hread. reflexivity.
Qed.

Lemma length_snoc_nonzero (init : list LogLine) (final : LogLine) :
  (Z.of_nat (List.length (init ++ [final])) =? 0) = false.
Proof.
  rewrite length_app. cbn [List.length]. apply Z.eqb_neq. lia.
Qed.

(** C5: when the merged log is non-empty and its final line is
    non-stopping, the run exits with code 0, makes no request to the Sink
    and leaves the primary log as it was. *)
Theorem in_progress_gate (w w1 : World) (init : list LogLine) (final : LogLine) :
  readLogs w = (Returned (init ++ [final]), w1) ->
  stopping final = false ->
  fst (run w) = Exited 0 /\
  notionRequests (snd (run w)) = notionRequests w /\
  primaryLog (snd (run w)) = primaryLog w.
Proof.
  intros Hread Hfinal.
  destruct (readLogs_frame _ _ _ Hread) as [Hp Hr].
  rewrite (main_after_readLogs _ _ _ Hread).
  rewrite length_snoc_nonzero, last_last, Hfinal. cbn. auto.
Qed.

(** C8: in a run that reaches delivery the loop goes through the whole
    batch whatever the Sink answers: the requests received by the Sink are
    the records of all periods of the batch, in order (a period with an
    Invalid date has no record and goes straight to the recovery log), no
    failure stops the run, and the primary log is empty afterwards. *)
Theorem delivery_attempts_whole_batch
    (w w1 : World) (init : list LogLine) (final : LogLine) :
  readLogs w = (Returned (init ++ [final]), w1) ->
  stopping final = true ->
  exists w' : World,
    run w = (Returned tt, w') /\
    primaryLog w' = Some [] /\
    map fst (notionRequests w') =
      map fst (notionRequests w) ++ records (getWorkPeriods (init ++ [final])).
Proof.
  intros Hread Hfinal.
  destruct (readLogs_frame _ _ _ Hread) as [Hp Hr].
  rewrite (main_after_readLogs _ _ _ Hread).
  rewrite length_snoc_nonzero, last_last, Hfinal. cbn [negb].
  destruct (forEach_postOrRequeue (getWorkPeriods (init ++ [final])) w1)
    as (w2 & Hrun & _ & Hreq).
  unfold bind. rewrite Hrun. cbn.
  eexists. split; [reflexivity |]. cbn. split; [reflexivity |].
  rewrite Hreq, Hr. reflexivity.
Qed.


(** Every period in a batch is a result of normalizeWorkPeriod. *)
Lemma reducer_step_normalized (st : ReducerState) (line : LogLine) :
  Forall (fun wp => exists ws we, normalizeWorkPeriod ws we = Some wp)
         (workPeriods st) ->
  Forall (fun wp => exists ws we, normalizeWorkPeriod ws we = Some wp)
         (workPeriods (reducer_step st line)).
Proof.
  intros Hall. unfold reducer_step.
  destruct (stopping line), (workStart st) as [ws|];
    cbn [workPeriods]; try assumption.
  destruct (normalizeWorkPeriod ws (date line)) as [p|] eqn:Hn;
    [| assumption].
  apply Forall_app. split; [assumption |].
  constructor; [| constructor]. now exists ws, (date line).
Qed.

Lemma getWorkPeriods_normalized (log : list LogLine) (wp : WorkPeriod) :
  In wp (getWorkPeriods log) ->
  exists ws we, normalizeWorkPeriod ws we = Some wp.
Proof.
  unfold getWorkPeriods.
  assert (Hgen : forall st,
             Forall (fun wp => exists ws we, normalizeWorkPeriod ws we = Some wp)
                    (workPeriods st) ->
             Forall (fun wp => exists ws we, normalizeWorkPeriod ws we = Some wp)
                    (workPeriods (fold_left reducer_step log st))).
  { induction log as [|line others IH]; intros st Hst; [exact Hst |].
    cbn [fold_left]. apply IH. now apply reducer_step_normalized. }
  intros Hin.
  pose proof (Hgen reducer_init (Forall_nil _)) as Hall.
  rewrite Forall_forall in Hall. exact (Hall wp Hin).
Qed.

Lemma getWorkPeriods_valid_shape (log : list LogLine) (wp : WorkPeriod) (s e : Z) :
  In wp (getWorkPeriods log) ->
  start wp = ValidDate s -> end_ wp = ValidDate e ->
  exists k, 5 <= k <= 25 /\ e = s + k * MINUTE.
Proof.
  intros Hin Hs He.
  destruct (getWorkPeriods_normalized log wp Hin) as (ws & we & Hn).
  destruct ws as [s0|], we as [e0|];
    try (injection Hn as <-; cbn in He; discriminate).
  apply normalizeWorkPeriod_valid_shape in Hn.
  destruct Hn as (k & Hk & ->). cbn [start end_] in Hs, He.
  injection Hs as <-. apply TimeClip_valid in He. destruct He as [-> _].
  now exists k.
Qed.

Lemma forEach_all_rejected (batch : list WorkPeriod) :
  (forall history properties,
      notion_pages_create history properties = false) ->
  forall w : World,
    file_lines (failuresLog (snd (forEach batch post_or_requeue w))) =
      file_lines (failuresLog w) ++ flat_map getLogLinesFromWorkPeriod batch.
Proof.
  intros Hrej. induction batch as [|wp batch IH]; intros w.
  - cbn. now rewrite app_nil_r.
  - cbn [forEach flat_map]. unfold bind. rewrite postOrRequeue_spec.
    destruct (record_of wp) as [properties| |code] eqn:Hrec.
    + rewrite Hrej, IH. cbn. now rewrite <- app_assoc.
    + rewrite IH. cbn. now rewrite <- app_assoc.
    + now apply createWorkProperty_never_exits in Hrec.
Qed.

(** C2 (as amended): when posting a period throws, the loop body appends
    to the recovery log exactly two lines, idle→work at the period's start
    and work→idle at its end, and carries on.  The period is the one handed
    to delivery, that is the normalized one: normalizing it again returns
    it unchanged.  With a Sink that rejects every request, a run that
    reaches delivery leaves in the recovery log two such lines per period
    of the batch, in order. *)
Theorem failed_delivery_requeues_normalized_period :
  (forall (wp : WorkPeriod) (w w1 : World),
      post wp w = (Thrown, w1) ->
      post_or_requeue wp w =
        (Returned tt,
         mkWorld (primaryLog w1)
                 (Some (file_lines (failuresLog w1) ++
                        [JsonText (mkJsonLogLine startStop idle work
                                     (JSON_number (seconds (start wp))));
                         JsonText (mkJsonLogLine startStop work idle
                                     (JSON_number (seconds (end_ wp))))]))
                 (notionRequests w1)))
  /\ (forall (log : list LogLine) (wp : WorkPeriod),
         In wp (getWorkPeriods log) ->
         normalizeWorkPeriod (start wp) (end_ wp) = Some wp)
  /\ (forall (w w1 : World) (init : list LogLine) (final : LogLine),
         (forall history properties,
             notion_pages_create history properties = false) ->
         readLogs w = (Returned (init ++ [final]), w1) ->
         stopping final = true ->
         file_lines (failuresLog (snd (run w))) =
           file_lines (failuresLog w1) ++
           flat_map getLogLinesFromWorkPeriod
                    (getWorkPeriods (init ++ [final]))).
Proof.
  split; [| split].
  - intros wp w w1. rewrite postWorkPeriod_spec, postOrRequeue_spec.
    destruct (record_of wp) as [properties| |code] eqn:Hrec.
    + cbv zeta.
      destruct (notion_pages_create (notionRequests w) properties);
        [discriminate |].
      intros [= <-]. reflexivity.
    + intros [= <-]. reflexivity.
    + discriminate.
  - intros log wp Hin.
    destruct (getWorkPeriods_normalized log wp Hin) as (ws & we & Hn).
    exact (normalizeWorkPeriod_fixed ws we wp Hn).
  - intros w w1 init final Hrej Hread Hfinal.
    rewrite (main_after_readLogs _ _ _ Hread).
    rewrite length_snoc_nonzero, last_last, Hfinal. cbn [negb].
    pose proof (forEach_all_rejected (getWorkPeriods (init ++ [final])) Hrej w1)
      as Hq.
    destruct (forEach_postOrRequeue (getWorkPeriods (init ++ [final])) w1)
      as (w2 & Hrun & _).
    rewrite Hrun in Hq. cbn [snd] in Hq.
    unfold bind. rewrite Hrun. cbn. exact Hq.
Qed.

Lemma whole_minutes_title_value (k : Z) :
  0 <= k <= 25 ->
  (Number_of_Z (k * MINUTE) / 1000 / 60)%float = Number_of_Z k /\
  (Number_of_Z (k * MINUTE) / Number_of_Z 60000)%float = Number_of_Z k.
Proof.
  intros Hk. rewrite <- (Z2Nat.id k) by lia.
  assert (Hn : (Z.to_nat k <= 25)%nat) by lia.
  revert Hn. generalize (Z.to_nat k) as n. intros n Hn.
  do 26 (destruct n as [|n]; [split; vm_compute; reflexivity|]). lia.
Qed.

(** C9: the record built for a period has the title "⏳ " followed by
    the Number (end - start) / 1000 / 60 taken from the period it is given.
    For every period of a batch this Number is (end - start) / 60000, a
    whole number of minutes between 5 and 25.  The value comes from the
    period's own duration: for 650000 ms it is 10.833333333333334, not the
    11 periods that normalization counts. *)
Theorem delivery_record_title :
  (forall s e : Z,
      record_of (mkWorkPeriod (ValidDate s) (ValidDate e)) =
        Returned (mkProperties
                    ("⏳ " ++ Number_toString (Number_of_Z (e - s) / 1000 / 60)%float)
                    (toISOString s) (toISOString e)))
  /\ (forall (log : list LogLine) (wp : WorkPeriod) (s e : Z),
         In wp (getWorkPeriods log) ->
         start wp = ValidDate s -> end_ wp = ValidDate e ->
         exists properties,
           record_of wp = Returned properties /\
           Name_title_text_content properties =
             ("⏳ " ++ Number_toString
                        (Number_of_Z (e - s) / Number_of_Z 60000)%float)%string /\
           exists k, 5 <= k <= 25 /\ e - s = k * 60000 /\
                     (Number_of_Z (e - s) / Number_of_Z 60000)%float =
                       Number_of_Z k)
  /\ (Number_of_Z (650000 - 0) / 1000 / 60)%float = 0x1.5aaaaaaaaaaabp+3%float
  /\ Math_round (Number_of_Z (650000 - 0) / Number_of_Z 60000)%float = 11.
Proof.
  split; [| split; [| split]].
  - reflexivity.
  - intros log wp s e Hin Hs He.
    destruct (getWorkPeriods_valid_shape log wp s e Hin Hs He) as (k & Hk & ->).
    destruct (whole_minutes_title_value k) as [Ht Hq]; [lia |].
    replace (s + k * MINUTE - s) with (k * MINUTE) by lia.
    destruct wp as [ws we]. cbn [start end_] in Hs, He. subst ws we.
    eexists. split; [reflexivity |]. cbn [Name_title_text_content].
    replace (s + k * MINUTE - s) with (k * MINUTE) by lia.
    rewrite Ht, Hq. split; [reflexivity |].
    exists k. split; [lia |]. split; reflexivity.
  - vm_compute; reflexivity.
  - vm_compute; reflexivity.
Qed.

End PipelineProperties.

(** ** Round trip through the recovery log *)

Lemma parse_requeued_lines (wp : WorkPeriod) :
  map_parseLogLine (getLogLinesFromWorkPeriod wp) =
    Returned [mkLogLine false (reread (start wp));
              mkLogLine true (reread (end_ wp))].
Proof. reflexivity. Qed.

Lemma Qtruncate_within (q : Q) (bound : Z) :
  (Qabs q <= inject_Z bound)%Q -> - bound <= Qtruncate q <= bound.
Proof.
  intros Habs. apply Qabs_Qle_condition in Habs. destruct Habs as [Hlo Hhi].
  unfold Qtruncate. destruct (Qle_bool 0 q) eqn:Hsign.
  - apply Qle_bool_iff in Hsign.
    pose proof (Qfloor_resp_le _ _ Hsign) as H0.
    pose proof (Qfloor_resp_le _ _ Hhi) as H1.
    rewrite Qfloor_Z in H1. change (Qfloor 0) with 0 in H0. lia.
  - assert (Hneg : (q <= 0)%Q).
    { destruct (Qlt_le_dec 0 q) as [Hpos | Hle]; [| exact Hle].
      apply Qlt_le_weak, Qle_bool_iff in Hpos. congruence. }
    pose proof (Qceiling_resp_le _ _ Hneg) as H0.
    pose proof (Qceiling_resp_le _ _ Hlo) as H1.
    rewrite <- inject_Z_opp, Qceiling_Z in H1.
    change (Qceiling 0) with 0 in H0. lia.
Qed.

Lemma new_Date_valid_range (x : float) (t : Z) :
  new_Date x = ValidDate t -> - Date_max <= t <= Date_max.
Proof.
  unfold new_Date. destruct (Number_value x) as [q|]; [| discriminate].
  destruct (Qle_bool (Qabs q) (inject_Z Date_max)) eqn:Hle; [| discriminate].
  intros [= <-]. apply Qle_bool_iff in Hle.
  now apply Qtruncate_within.
Qed.

Lemma reread_valid_range (d : Date) (t : Z) :
  reread d = ValidDate t -> - Date_max <= t <= Date_max.
Proof. unfold reread, unixToDate. apply new_Date_valid_range. Qed.

Lemma getWorkPeriods_open_close (t0 t1 : Date) :
  getWorkPeriods [mkLogLine false t0; mkLogLine true t1] =
    match normalizeWorkPeriod t0 t1 with
    | Some p => [p]
    | None => []
    end.
Proof.
  unfold getWorkPeriods. cbn [fold_left reducer_step reducer_init stopping
                              workStart workPeriods date].
  destruct (normalizeWorkPeriod t0 t1); reflexivity.
Qed.

(** C3 (as amended): for a work period whose two time values come back
    unchanged from the conversion to seconds and back, parsing the two
    lines written for it gives a non-stopping line dated at its start and a
    stopping line dated at its end; the reducer then emits
    normalizeWorkPeriod(start, end), which is the period itself when it is
    a whole number of minutes between 5 and 25 long. *)
Theorem requeue_round_trip (s e : Z) :
  reread (ValidDate s) = ValidDate s ->
  reread (ValidDate e) = ValidDate e ->
  map_parseLogLine
    (getLogLinesFromWorkPeriod (mkWorkPeriod (ValidDate s) (ValidDate e))) =
    Returned [work_open s; idle_close e]
  /\ getWorkPeriods [work_open s; idle_close e] =
       match normalizeWorkPeriod (ValidDate s) (ValidDate e) with
       | Some p => [p]
       | None => []
       end
  /\ (forall k : Z,
         5 <= k <= 25 -> e = s + k * MINUTE ->
         getWorkPeriods [work_open s; idle_close e] =
           [mkWorkPeriod (ValidDate s) (ValidDate e)]).
Proof.
  intros Hs He. split; [| split].
  - rewrite parse_requeued_lines. cbn [start end_]. now rewrite Hs, He.
  - apply getWorkPeriods_open_close.
  - intros k Hk ->. unfold work_open, idle_close.
    rewrite getWorkPeriods_open_close.
    rewrite normalizeWorkPeriod_whole_minutes by exact Hk.
    now rewrite (TimeClip_in_range _ (reread_valid_range _ _ He)).
Qed.

Lemma requeue_round_trip_witness :
  reread (ValidDate 100000) = ValidDate 100000 /\
  reread (ValidDate 760000) = ValidDate 760000 /\
  getWorkPeriods [work_open 100000; idle_close 760000] =
    [mkWorkPeriod (ValidDate 100000) (ValidDate 760000)].
Proof.
  assert (Hs : reread (ValidDate 100000) = ValidDate 100000)
    by (vm_compute; reflexivity).
  assert (He : reread (ValidDate 760000) = ValidDate 760000)
    by (vm_compute; reflexivity).
  split; [exact Hs | split; [exact He |]].
  apply (proj2 (proj2 (requeue_round_trip 100000 760000 Hs He)) 11).
  - lia.
  - reflexivity.
Defined.

(** The claim as stated fails for a period shorter than the floor: the
    lines written for (0, 3min) parse back to the same two dates, and the
    reducer emits nothing. *)
Lemma short_period_does_not_round_trip :
  Date_ltb (ValidDate 0) (ValidDate (minutes 3)) = true /\
  map_parseLogLine
    (getLogLinesFromWorkPeriod
       (mkWorkPeriod (ValidDate 0) (ValidDate (minutes 3)))) =
    Returned [work_open 0; idle_close (minutes 3)] /\
  getWorkPeriods [work_open 0; idle_close (minutes 3)] = [] /\
  getWorkPeriods [work_open 0; idle_close (minutes 3)] <>
    [mkWorkPeriod (ValidDate 0) (ValidDate (minutes 3))].
Proof.
  assert (H : getWorkPeriods [work_open 0; idle_close (minutes 3)] = [])
    by (vm_compute; reflexivity).
  repeat split; try (vm_compute; reflexivity).
  rewrite H. discriminate.
Qed.

(** The conversion to seconds and back is not always exact: the product
    [timestamp * 1000] can fall just below the whole millisecond and is
    then truncated.  The five-minute period starting at
    2038-01-19T03:14:08.002Z comes back one millisecond earlier. *)
Example seconds_conversion_drift :
  reread (ValidDate 1001) = ValidDate 1000 /\
  reread (ValidDate 2147483648002) = ValidDate 2147483648001 /\
  reread (ValidDate 1700000000123) = ValidDate 1700000000123 /\
  map_parseLogLine
    (getLogLinesFromWorkPeriod
       (mkWorkPeriod (ValidDate 2147483648002)
                     (ValidDate (2147483648002 + minutes 5)))) =
    Returned [work_open 2147483648001;
              idle_close (2147483648001 + minutes 5)] /\
  getWorkPeriods [work_open 2147483648001;
                  idle_close (2147483648001 + minutes 5)] =
    [mkWorkPeriod (ValidDate 2147483648001)
                  (ValidDate (2147483648001 + minutes 5))].
Proof. repeat split; vm_compute; reflexivity. Qed.

(** ** Closed runs *)

(** The claim C2 as stated fails: in the end-to-end failure scenario the
    reducer sees the raw interval (100 s, 750 s), and the two lines left in
    the recovery log are those of the normalized period (100 s, 760 s), not
    those of the raw interval. *)
Lemma requeued_period_is_not_the_raw_interval :
  readLogs scenario_world =
    (Returned [work_open 100000; idle_close 750000], scenario_world) /\
  failuresLog
    (snd (main decimal_Number_toString decimal_toISOString sink_rejects_all
               scenario_world)) =
    Some (getLogLinesFromWorkPeriod
            (mkWorkPeriod (ValidDate 100000) (ValidDate 760000))) /\
  failuresLog
    (snd (main decimal_Number_toString decimal_toISOString sink_rejects_all
               scenario_world)) <>
    Some (getLogLinesFromWorkPeriod
            (mkWorkPeriod (ValidDate 100000) (ValidDate 750000))).
Proof.
  split; [vm_compute; reflexivity |].
  assert (H : failuresLog
                (snd (main decimal_Number_toString decimal_toISOString
                           sink_rejects_all scenario_world)) =
              Some (getLogLinesFromWorkPeriod
                      (mkWorkPeriod (ValidDate 100000) (ValidDate 760000))))
    by (vm_compute; reflexivity).
  split; [exact H |].
  rewrite H. intros Heq.
  apply (f_equal (fun o => match o with
                           | Some [_; JsonText j] => Number_value (timestamp j)
                           | _ => None
                           end)) in Heq.
  vm_compute in Heq. discriminate.
Qed.

Lemma failed_delivery_requeues_normalized_period_witness :
  (forall history properties, sink_rejects_all history properties = false) /\
  readLogs scenario_world =
    (Returned ([work_open 100000] ++ [idle_close 750000]), scenario_world) /\
  stopping (idle_close 750000) = true /\
  file_lines
    (failuresLog
       (snd (main decimal_Number_toString decimal_toISOString sink_rejects_all
                  scenario_world))) =
    file_lines (failuresLog scenario_world) ++
    flat_map getLogLinesFromWorkPeriod
             (getWorkPeriods ([work_open 100000] ++ [idle_close 750000])).
Proof.
  assert (Hrej : forall history properties,
             sink_rejects_all history properties = false)
    by (intros history properties; reflexivity).
  assert (Hread : readLogs scenario_world =
                    (Returned ([work_open 100000] ++ [idle_close 750000]),
                     scenario_world))
    by (vm_compute; reflexivity).
  assert (Hfinal : stopping (idle_close 750000) = true) by reflexivity.
  split; [exact Hrej | split; [exact Hread | split; [exact Hfinal |]]].
  exact (proj2 (proj2 (failed_delivery_requeues_normalized_period
                         decimal_Number_toString decimal_toISOString
                         sink_rejects_all))
               _ _ _ _ Hrej Hread Hfinal).
Defined.

Lemma in_progress_gate_witness :
  readLogs in_progress_world =
    (Returned ([] ++ [work_open 100000]), in_progress_world) /\
  stopping (work_open 100000) = false /\
  fst (main decimal_Number_toString decimal_toISOString sink_accepts_all
            in_progress_world) = Exited 0 /\
  notionRequests
    (snd (main decimal_Number_toString decimal_toISOString sink_accepts_all
               in_progress_world)) = notionRequests in_progress_world /\
  primaryLog
    (snd (main decimal_Number_toString decimal_toISOString sink_accepts_all
               in_progress_world)) = primaryLog in_progress_world.
Proof.
  assert (Hread : readLogs in_progress_world =
                    (Returned ([] ++ [work_open 100000]), in_progress_world))
    by (vm_compute; reflexivity).
  assert (Hfinal : stopping (work_open 100000) = false) by reflexivity.
  split; [exact Hread | split; [exact Hfinal |]].
  exact (in_progress_gate decimal_Number_toString decimal_toISOString
           sink_accepts_all _ _ _ _ Hread Hfinal).
Defined.

Lemma delivery_attempts_whole_batch_witness :
  readLogs recovery_world =
    (Returned ([work_open 2000000; idle_close 2600000; work_open 100000] ++
               [idle_close 760000]),
     recovery_cleared recovery_world) /\
  stopping (idle_close 760000) = true /\
  exists w' : World,
    main decimal_Number_toString decimal_toISOString sink_rejects_all
         recovery_world = (Returned tt, w') /\
    primaryLog w' = Some [] /\
    map fst (notionRequests w') =
      map fst (notionRequests recovery_world) ++
      delivery_records decimal_Number_toString decimal_toISOString
        (getWorkPeriods
           ([work_open 2000000; idle_close 2600000; work_open 100000] ++
            [idle_close 760000])).
Proof.
  assert (Hread : readLogs recovery_world =
                    (Returned ([work_open 2000000; idle_close 2600000;
                                work_open 100000] ++ [idle_close 760000]),
                     recovery_cleared recovery_world))
    by (vm_compute; reflexivity).
  assert (Hfinal : stopping (idle_close 760000) = true) by reflexivity.
  split; [exact Hread | split; [exact Hfinal |]].
  exact (delivery_attempts_whole_batch decimal_Number_toString
           decimal_toISOString sink_rejects_all _ _ _ _ Hread Hfinal).
Defined.

Lemma recovery_loader_witness :
  failuresLog recovery_world =
    Some [transition idle work 100; transition work idle 760] /\
  map_parseLogLine [transition idle work 100; transition work idle 760] =
    Returned [work_open 100000; idle_close 760000] /\
  checkForFailures resolvedFailuresPath recovery_world =
    (Returned (Some [work_open 100000; idle_close 760000]),
     mkWorld (primaryLog recovery_world) (Some [])
             (notionRequests recovery_world)).
Proof.
  assert (Hf : failuresLog recovery_world =
                 Some [transition idle work 100; transition work idle 760])
    by reflexivity.
  assert (Hp : map_parseLogLine
                 [transition idle work 100; transition work idle 760] =
               Returned [work_open 100000; idle_close 760000])
    by (vm_compute; reflexivity).
  split; [exact Hf | split; [exact Hp |]].
  refine (proj1 (proj2 recovery_loader recovery_world _ _ Hf _ Hp)).
  discriminate.
Defined.

Lemma delivery_record_title_witness :
  In (mkWorkPeriod (ValidDate 100000) (ValidDate 760000))
     (getWorkPeriods [work_open 100000; idle_close 750000]) /\
  exists properties,
    createWorkProperty decimal_Number_toString decimal_toISOString
      (mkWorkPeriod (ValidDate 100000) (ValidDate 760000)) =
      Returned properties /\
    Name_title_text_content properties =
      ("⏳ " ++ decimal_Number_toString
                 (Number_of_Z (760000 - 100000) / Number_of_Z 60000)%float)%string /\
    exists k, 5 <= k <= 25 /\ 760000 - 100000 = k * 60000 /\
              (Number_of_Z (760000 - 100000) / Number_of_Z 60000)%float =
                Number_of_Z k.
Proof.
  assert (Hin : In (mkWorkPeriod (ValidDate 100000) (ValidDate 760000))
                   (getWorkPeriods [work_open 100000; idle_close 750000]))
    by (vm_compute; left; reflexivity).
  split; [exact Hin |].
  exact (proj1 (proj2 (delivery_record_title decimal_Number_toString
                         decimal_toISOString))
               _ _ 100000 760000 Hin eq_refl eq_refl).
Defined.

Lemma reducer_single_open_interval_witness :
  workStart (mkReducerState [] (Some (ValidDate 0))) = Some (ValidDate 0) /\
  stopping (work_open 300000) = false /\
  reducer_step (mkReducerState [] (Some (ValidDate 0))) (work_open 300000) =
    mkReducerState [] (Some (ValidDate 0)).
Proof.
  split; [reflexivity | split; [reflexivity |]].
  exact (proj1 reducer_single_open_interval
               (mkReducerState [] (Some (ValidDate 0))) (work_open 300000)
               (ValidDate 0) eq_refl eq_refl).
Defined.

(** * Further properties of the code *)

(** ** Normalizer: shape of the result and non-positive durations *)

(** X1: on valid times a returned period keeps the start it was given;
    its end is built from the start plus a whole number of minutes, between
    5 and 25: it is that time when it lies within the Date range of
    ±8.64e15 ms, and an Invalid Date when it lies beyond. *)
Theorem normalizeWorkPeriod_result (s e : Z) (p : WorkPeriod) :
  normalizeWorkPeriod (ValidDate s) (ValidDate e) = Some p ->
  start p = ValidDate s /\
  exists k,
    5 <= k <= 25 /\
    ((- Date_max <= s + k * 60000 <= Date_max /\
      end_ p = ValidDate (s + k * 60000)) \/
     (Date_max < Z.abs (s + k * 60000) /\ end_ p = InvalidDate)).
Proof.
  intros Hn.
  destruct (normalizeWorkPeriod_valid_shape s e p Hn) as (k & Hk & ->).
  split; [reflexivity |]. exists k. split; [exact Hk |].
  cbn [end_]. change MINUTE with 60000. unfold TimeClip.
  destruct (Z.abs (s + k * 60000) <=? Date_max) eqn:Hle.
  - left. apply Z.leb_le in Hle. split; [lia | reflexivity].
  - right. apply Z.leb_gt in Hle. split; [exact Hle | reflexivity].
Qed.

Lemma normalizeWorkPeriod_result_witness :
  normalizeWorkPeriod (ValidDate 8639999999430000) (ValidDate 8640000000000000) =
    Some (mkWorkPeriod (ValidDate 8639999999430000) InvalidDate) /\
  start (mkWorkPeriod (ValidDate 8639999999430000) InvalidDate) =
    ValidDate 8639999999430000 /\
  exists k,
    5 <= k <= 25 /\
    ((- Date_max <= 8639999999430000 + k * 60000 <= Date_max /\
      end_ (mkWorkPeriod (ValidDate 8639999999430000) InvalidDate) =
        ValidDate (8639999999430000 + k * 60000)) \/
     (Date_max < Z.abs (8639999999430000 + k * 60000) /\
      end_ (mkWorkPeriod (ValidDate 8639999999430000) InvalidDate) =
        InvalidDate)).
Proof.
  assert (Hn : normalizeWorkPeriod (ValidDate 8639999999430000)
                                   (ValidDate 8640000000000000) =
               Some (mkWorkPeriod (ValidDate 8639999999430000) InvalidDate))
    by (vm_compute; reflexivity).
  split; [exact Hn |].
  exact (normalizeWorkPeriod_result 8639999999430000 8640000000000000 _ Hn).
Defined.

Lemma binary_round_aux_sign (s : bool) (mx ex : Z) (lx : location) :
  signed_as s (binary_round_aux prec emax s mx ex lx).
Proof.
  unfold binary_round_aux.
  destruct (shr_fexp prec emax mx ex lx) as [mrs' e'].
  destruct (shr_fexp prec emax _ e' loc_Exact) as [mrs'' e''].
  destruct (shr_m mrs''); [reflexivity | | exact I].
  destruct (e'' <=? emax - prec); reflexivity.
Qed.

Lemma binary_round_sign (s : bool) (m : positive) (e : Z) :
  signed_as s (binary_round prec emax s m e).
Proof.
  unfold binary_round. destruct (shl_align _ _ _) as [mz ez].
  apply binary_round_aux_sign.
Qed.

Lemma SFldexp_sign (s : bool) (f : spec_float) (e : Z) :
  signed_as s f -> signed_as s (SFldexp prec emax f e).
Proof.
  destruct f as [s'|s'| |s' m ex]; cbn; auto.
  intros ->. apply binary_round_sign.
Qed.

Lemma SFopp_sign (s : bool) (f : spec_float) :
  signed_as s f -> signed_as (negb s) (SFopp f).
Proof. destruct f; cbn; auto; intros ->; reflexivity. Qed.

Lemma of_uint63_sign (m : positive) :
  signed_as false (Prim2SF (of_uint63 (Uint63.of_Z (Zpos m)))).
Proof.
  rewrite of_uint63_spec.
  pose proof (Uint63.to_Z_bounded (Uint63.of_Z (Zpos m))) as [H _].
  destruct (Uint63.to_Z _) as [|p|p]; cbn [binary_normalize].
  - reflexivity.
  - apply binary_round_sign.
  - lia.
Qed.

Lemma SF2Prim_sign (s : bool) (f : spec_float) :
  signed_as s f -> signed_as s (Prim2SF (SF2Prim f)).
Proof.
  destruct f as [s'|s'| |s' m e]; cbn [signed_as SF2Prim].
  - intros ->. destruct s; vm_compute; reflexivity.
  - intros ->. destruct s; vm_compute; reflexivity.
  - intros _. vm_compute. exact I.
  - intros ->. pose proof (SFldexp_sign false _ e (of_uint63_sign m)) as H.
    rewrite <- Z_ldexp_spec in H.
    destruct s.
    + rewrite opp_spec. apply (SFopp_sign false). exact H.
    + exact H.
Qed.

Lemma Number_of_Z_negative (z : Z) :
  z < 0 -> signed_as true (Prim2SF (Number_of_Z z)).
Proof.
  intros Hz. unfold Number_of_Z. apply SF2Prim_sign.
  destruct z; cbn [binary_normalize]; try lia.
  apply binary_round_sign.
Qed.

Lemma quotient_negative (z : Z) :
  z < 0 ->
  signed_as true (Prim2SF (Number_of_Z z / Number_of_Z MINUTE)%float).
Proof.
  intros Hz. rewrite div_spec.
  pose proof (Number_of_Z_negative z Hz) as Hs.
  replace (Prim2SF (Number_of_Z MINUTE))
    with (S754_finite false 8246337208320000 (-37))
    by (vm_compute; reflexivity).
  destruct (Prim2SF (Number_of_Z z)) as [s|s| |s m e];
    cbn [signed_as] in Hs; subst; try reflexivity.
  unfold SF64div, SFdiv.
  destruct (SFdiv_core_binary prec emax (Z.pos m) e _ _) as [[mz ez] lz].
  apply binary_round_aux_sign.
Qed.

Lemma Qfloor_half_of_negative (q : Q) :
  (q < 0)%Q -> Qfloor (q + (1 # 2)) <= 0.
Proof.
  intros Hq. pose proof (Qfloor_le (q + (1 # 2))) as Hle.
  destruct (Z_le_gt_dec (Qfloor (q + (1 # 2))) 0) as [H | H]; [exact H |].
  assert (H1 : (1 <= inject_Z (Qfloor (q + (1 # 2))))%Q).
  { rewrite <- (Zle_Qle 1). lia. }
  lra.
Qed.

Lemma Math_round_of_negative (x : float) :
  signed_as true (Prim2SF x) -> Math_round x <= 0.
Proof.
  unfold Math_round, Number_value.
  destruct (Prim2SF x) as [s|s| |s m e]; cbn [signed_as]; intros Hs;
    try (vm_compute; discriminate); try lia.
  subst s. apply Qfloor_half_of_negative.
  destruct e as [|p|p]; unfold Qlt; cbn [Qnum Qden inject_Z]; lia.
Qed.

Lemma backward_interval_periods (s e : Z) :
  e <= s ->
  Math_round (Number_of_Z (e - s) / Number_of_Z MINUTE) <= 0.
Proof.
  intros Hes. destruct (Z.eq_dec e s) as [-> | Hne].
  - rewrite Z.sub_diag. vm_compute. discriminate.
  - apply Math_round_of_negative, quotient_negative. lia.
Qed.

(** X2: an interval that does not end after it starts is dropped. *)
Theorem normalizeWorkPeriod_drops_backward_interval (s e : Z) :
  e <= s ->
  normalizeWorkPeriod (ValidDate s) (ValidDate e) = None.
Proof.
  intros Hes. rewrite normalizeWorkPeriod_valid. cbv zeta.
  change 60000 with MINUTE.
  pose proof (backward_interval_periods s e Hes) as Hp.
  set (periods := Math_round _) in *.
  destruct (periods * MINUTE <? 5 * MINUTE) eqn:Hlow; [reflexivity |].
  apply Z.ltb_ge in Hlow. unfold MINUTE in Hlow. lia.
Qed.

Lemma normalizeWorkPeriod_drops_backward_interval_witness :
  760000 <= 2000000 /\
  normalizeWorkPeriod (ValidDate 2000000) (ValidDate 760000) = None.
Proof.
  split; [lia |].
  apply (normalizeWorkPeriod_drops_backward_interval 2000000 760000). lia.
Defined.

(** ** Reducer: how it composes and what it can emit *)

Lemma reducer_step_from_open (st : ReducerState) (line : LogLine) :
  reducer_step st line =
    mkReducerState
      (workPeriods st ++
       workPeriods (reducer_step (mkReducerState [] (workStart st)) line))
      (workStart (reducer_step (mkReducerState [] (workStart st)) line)).
Proof.
  unfold reducer_step. cbn [workStart workPeriods].
  destruct st as [periods open]. cbn [workStart workPeriods].
  destruct (stopping line), open as [ws|]; cbn [workStart workPeriods];
    rewrite ?app_nil_r; try reflexivity.
  destruct (normalizeWorkPeriod ws (date line));
    cbn [app]; rewrite ?app_nil_r; reflexivity.
Qed.

Lemma fold_reducer_from_open (log : list LogLine) :
  forall st : ReducerState,
    fold_left reducer_step log st =
      mkReducerState
        (workPeriods st ++
         workPeriods (fold_left reducer_step log
                                (mkReducerState [] (workStart st))))
        (workStart (fold_left reducer_step log
                              (mkReducerState [] (workStart st)))).
Proof.
  induction log as [|line others IH]; intros st.
  - cbn. rewrite app_nil_r. now destruct st.
  - cbn [fold_left]. rewrite (IH (reducer_step st line)).
    rewrite (IH (reducer_step (mkReducerState [] (workStart st)) line)).
    rewrite (reducer_step_from_open st line).
    cbn [workStart workPeriods]. now rewrite app_assoc.
Qed.

Lemma getWorkPeriods_app (log1 log2 : list LogLine) :
  getWorkPeriods (log1 ++ log2) =
    getWorkPeriods log1 ++
    workPeriods
      (fold_left reducer_step log2
         (mkReducerState [] (workStart (fold_left reducer_step log1 reducer_init)))).
Proof.
  unfold getWorkPeriods. rewrite fold_left_app.
  now rewrite (fold_reducer_from_open log2 (fold_left reducer_step log1 reducer_init)).
Qed.

Lemma reducer_step_stopping_closes (st : ReducerState) (line : LogLine) :
  stopping line = true -> workStart (reducer_step st line) = None.
Proof.
  intros Hstop. unfold reducer_step. rewrite Hstop.
  destruct (workStart st) eqn:Hws; [reflexivity | exact Hws].
Qed.

Lemma ends_closed_no_open (log : list LogLine) :
  ends_closed log ->
  workStart (fold_left reducer_step log reducer_init) = None.
Proof.
  intros [-> | (init & final & -> & Hstop)]; [reflexivity |].
  rewrite fold_left_app. cbn [fold_left].
  now apply reducer_step_stopping_closes.
Qed.

(** X3: after a sequence that is empty or ends with a stopping line the
    reducer starts afresh: the periods of a concatenation are the periods
    of the first part followed by the periods of the second. *)
Theorem getWorkPeriods_app_closed (log1 log2 : list LogLine) :
  ends_closed log1 ->
  getWorkPeriods (log1 ++ log2) = getWorkPeriods log1 ++ getWorkPeriods log2.
Proof.
  intros Hclosed. rewrite getWorkPeriods_app.
  now rewrite (ends_closed_no_open log1 Hclosed).
Qed.

Lemma getWorkPeriods_app_closed_witness :
  ends_closed [work_open 0; idle_close 300000] /\
  getWorkPeriods ([work_open 0; idle_close 300000] ++
                  [work_open 900000; idle_close 1500000]) =
    getWorkPeriods [work_open 0; idle_close 300000] ++
    getWorkPeriods [work_open 900000; idle_close 1500000].
Proof.
  assert (H : ends_closed [work_open 0; idle_close 300000]).
  { right. exists [work_open 0], (idle_close 300000). split; reflexivity. }
  split; [exact H |].
  exact (getWorkPeriods_app_closed _ _ H).
Defined.

Lemma fold_opening_lines (opens : list LogLine) :
  Forall (fun line => stopping line = false) opens ->
  forall st : ReducerState,
    workPeriods (fold_left reducer_step opens st) = workPeriods st.
Proof.
  induction 1 as [|line others Hline _ IH]; intros st; [reflexivity |].
  cbn [fold_left]. rewrite IH. unfold reducer_step. rewrite Hline.
  now destruct (workStart st).
Qed.

Lemma fold_stopping_lines (stops : list LogLine) :
  Forall (fun line => stopping line = true) stops ->
  fold_left reducer_step stops reducer_init = reducer_init.
Proof.
  induction 1 as [|line others Hline _ IH]; [reflexivity |].
  cbn [fold_left]. unfold reducer_step at 2. rewrite Hline. exact IH.
Qed.

(** X4: lines that cannot belong to a period change nothing: stopping
    lines before the first opening line are skipped, and an interval still
    open when the log ends (any run of non-stopping lines at the end) is
    not emitted. *)
Theorem getWorkPeriods_ignores_unpaired_lines
    (stops log opens : list LogLine) :
  Forall (fun line => stopping line = true) stops ->
  Forall (fun line => stopping line = false) opens ->
  getWorkPeriods (stops ++ log ++ opens) = getWorkPeriods log.
Proof.
  intros Hstops Hopens. unfold getWorkPeriods.
  rewrite !fold_left_app, (fold_stopping_lines stops Hstops).
  now apply fold_opening_lines.
Qed.

Lemma getWorkPeriods_ignores_unpaired_lines_witness :
  Forall (fun line => stopping line = true) [idle_close 5] /\
  Forall (fun line => stopping line = false) [work_open 2000000] /\
  getWorkPeriods ([idle_close 5] ++ [work_open 100000; idle_close 750000] ++
                  [work_open 2000000]) =
    getWorkPeriods [work_open 100000; idle_close 750000].
Proof.
  assert (H1 : Forall (fun line => stopping line = true) [idle_close 5])
    by (repeat constructor).
  assert (H2 : Forall (fun line => stopping line = false) [work_open 2000000])
    by (repeat constructor).
  split; [exact H1 | split; [exact H2 |]].
  exact (getWorkPeriods_ignores_unpaired_lines _ _ _ H1 H2).
Defined.

Lemma reducer_step_counts (st : ReducerState) (line : LogLine) :
  (List.length (workPeriods (reducer_step st line)) <=
     List.length (workPeriods st) + (if stopping line then 1 else 0))%nat /\
  (List.length (workPeriods (reducer_step st line)) +
     open_count (reducer_step st line) <=
     List.length (workPeriods st) + open_count st +
     (if stopping line then 0 else 1))%nat.
Proof.
  unfold reducer_step, open_count.
  destruct (stopping line), (workStart st) as [ws|] eqn:Hws;
    cbn [workStart workPeriods]; rewrite ?Hws; try lia.
  destruct (normalizeWorkPeriod ws (date line));
    rewrite ?length_app; cbn [List.length]; lia.
Qed.

Lemma fold_reducer_counts (log : list LogLine) :
  forall st : ReducerState,
    (List.length (workPeriods (fold_left reducer_step log st)) <=
       List.length (workPeriods st) + count_stopping log)%nat /\
    (List.length (workPeriods (fold_left reducer_step log st)) +
       open_count (fold_left reducer_step log st) <=
       List.length (workPeriods st) + open_count st + count_opening log)%nat.
Proof.
  unfold count_stopping, count_opening.
  induction log as [|line others IH]; intros st; [cbn; lia |].
  cbn [fold_left filter].
  destruct (IH (reducer_step st line)) as [H1 H2].
  destruct (reducer_step_counts st line) as [S1 S2].
  destruct (stopping line); cbn [negb List.length]; lia.
Qed.

(** X5: every emitted period uses up one opening line and one stopping
    line: there are at most as many periods as stopping lines, and at most
    as many as non-stopping lines. *)
Theorem getWorkPeriods_length_bound (log : list LogLine) :
  (List.length (getWorkPeriods log) <= count_stopping log)%nat /\
  (List.length (getWorkPeriods log) <= count_opening log)%nat.
Proof.
  unfold getWorkPeriods.
  destruct (fold_reducer_counts log reducer_init) as [H1 H2].
  cbn in H1, H2. split; lia.
Qed.

Lemma reducer_step_paired (all : list LogLine) (st : ReducerState) (line : LogLine) :
  In line all ->
  (forall d, workStart st = Some d ->
             exists opening, In opening all /\ stopping opening = false /\
                             date opening = d) ->
  Forall (paired_in all) (workPeriods st) ->
  (forall d, workStart (reducer_step st line) = Some d ->
             exists opening, In opening all /\ stopping opening = false /\
                             date opening = d) /\
  Forall (paired_in all) (workPeriods (reducer_step st line)).
Proof.
  intros Hin Hopen Hall. unfold reducer_step.
  destruct (stopping line) eqn:Hstop, (workStart st) as [ws|] eqn:Hws;
    cbn [workStart workPeriods].
  - split; [discriminate |].
    destruct (normalizeWorkPeriod ws (date line)) as [p|] eqn:Hn;
      [| exact Hall].
    apply Forall_app. split; [exact Hall |].
    constructor; [| constructor].
    destruct (Hopen ws eq_refl) as (opening & Ho & Hs & Hd).
    exists opening, line. rewrite Hd. auto.
  - split; [rewrite Hws; discriminate | exact Hall].
  - split; [rewrite Hws; exact Hopen | exact Hall].
  - split; [| exact Hall].
    intros d [= <-]. exists line. auto.
Qed.

Lemma fold_reducer_paired (all log : list LogLine) :
  incl log all ->
  forall st : ReducerState,
    (forall d, workStart st = Some d ->
               exists opening, In opening all /\ stopping opening = false /\
                               date opening = d) ->
    Forall (paired_in all) (workPeriods st) ->
    Forall (paired_in all) (workPeriods (fold_left reducer_step log st)).
Proof.
  induction log as [|line others IH]; intros Hincl st Hopen Hall;
    [exact Hall |].
  cbn [fold_left].
  destruct (reducer_step_paired all st line (Hincl line (or_introl eq_refl))
              Hopen Hall) as [Ho Ha].
  apply IH; [| exact Ho | exact Ha].
  intros x Hx. apply Hincl. now right.
Qed.

(** X6: nothing is invented: every emitted period is what
    normalizeWorkPeriod returns for the date of a non-stopping line and the
    date of a stopping line of the log. *)
Theorem getWorkPeriods_from_log_lines (log : list LogLine) (wp : WorkPeriod) :
  In wp (getWorkPeriods log) ->
  exists opening closing,
    In opening log /\ In closing log /\
    stopping opening = false /\ stopping closing = true /\
    normalizeWorkPeriod (date opening) (date closing) = Some wp.
Proof.
  intros Hin.
  assert (Hall : Forall (paired_in log) (getWorkPeriods log)).
  { apply (fold_reducer_paired log log (incl_refl log) reducer_init).
    - discriminate.
    - constructor. }
  rewrite Forall_forall in Hall. exact (Hall wp Hin).
Qed.

Lemma getWorkPeriods_from_log_lines_witness :
  In (mkWorkPeriod (ValidDate 100000) (ValidDate 760000))
     (getWorkPeriods [work_open 100000; idle_close 750000]) /\
  exists opening closing,
    In opening [work_open 100000; idle_close 750000] /\
    In closing [work_open 100000; idle_close 750000] /\
    stopping opening = false /\ stopping closing = true /\
    normalizeWorkPeriod (date opening) (date closing) =
      Some (mkWorkPeriod (ValidDate 100000) (ValidDate 760000)).
Proof.
  assert (Hin : In (mkWorkPeriod (ValidDate 100000) (ValidDate 760000))
                   (getWorkPeriods [work_open 100000; idle_close 750000]))
    by (vm_compute; left; reflexivity).
  split; [exact Hin |].
  exact (getWorkPeriods_from_log_lines _ _ Hin).
Defined.

(** X7: merging re-queued lines behind a primary log that ends with an
    interval still open: the re-queued opening line is ignored, the
    re-queued stopping line closes the primary log's open interval, and
    since that line is not later than the open start nothing is emitted
    for either of them; the remaining lines are reduced on their own. *)
Theorem open_primary_swallows_requeued_period
    (primary remaining : list LogLine) (t b : Z) (a : Date) :
  ends_closed primary ->
  b <= t ->
  getWorkPeriods (primary ++ [work_open t] ++
                  [mkLogLine false a; idle_close b] ++ remaining) =
    getWorkPeriods primary ++ getWorkPeriods remaining.
Proof.
  intros Hclosed Hbt.
  rewrite (getWorkPeriods_app primary), (ends_closed_no_open primary Hclosed).
  f_equal.
  change (fold_left reducer_step ([work_open t] ++ [mkLogLine false a; idle_close b] ++ remaining)
                    (mkReducerState [] None))
    with (fold_left reducer_step remaining
            (reducer_step (mkReducerState [] (Some (ValidDate t))) (idle_close b))).
  unfold reducer_step at 2. cbn [stopping idle_close workStart workPeriods date].
  assert (Hnone : normalizeWorkPeriod (ValidDate t) (ValidDate b) = None).
  { rewrite normalizeWorkPeriod_valid. cbv zeta. change 60000 with MINUTE.
    pose proof (backward_interval_periods t b Hbt) as Hp.
    set (periods := Math_round _) in *.
    destruct (periods * MINUTE <? 5 * MINUTE) eqn:Hlow; [reflexivity |].
    apply Z.ltb_ge in Hlow. unfold MINUTE in Hlow. lia. }
  now rewrite Hnone.
Qed.

Lemma open_primary_swallows_requeued_period_witness :
  ends_closed [] /\ (760000 <= 2000000) /\
  (getWorkPeriods ([] ++ [work_open 2000000] ++
                   [mkLogLine false (ValidDate 100000); idle_close 760000] ++
                   []) =
     getWorkPeriods [] ++ getWorkPeriods []).
Proof.
  assert (H : ends_closed []) by (left; reflexivity).
  assert (Hle : 760000 <= 2000000) by lia.
  split; [exact H | split; [exact Hle |]].
  exact (open_primary_swallows_requeued_period [] [] 2000000 760000
           (ValidDate 100000) H Hle).
Defined.

(** ** Parsing and the recovery loader *)

Lemma parseLogLine_cases (line : Line) :
  (line = Malformed /\ parseLogLine line = Thrown) \/
  (exists l, line <> Malformed /\ parseLogLine line = Returned l).
Proof.
  destruct line as [j|]; [right | left; split; reflexivity].
  eexists. split; [discriminate | reflexivity].
Qed.

Lemma map_parseLogLine_never_exits (lines : list Line) (code : Z) :
  map_parseLogLine lines <> Exited code.
Proof.
  induction lines as [|line others IH]; [discriminate |].
  cbn [map_parseLogLine].
  destruct (parseLogLine_cases line) as [[_ ->] | (l & _ & ->)];
    [discriminate |].
  destruct (map_parseLogLine others); [discriminate | discriminate |].
  intros [= ->]. now apply IH.
Qed.

Lemma map_parseLogLine_thrown (lines : list Line) :
  map_parseLogLine lines = Thrown <-> In Malformed lines.
Proof.
  induction lines as [|line others IH]; [split; [discriminate | intros []] |].
  cbn [map_parseLogLine In].
  destruct (parseLogLine_cases line) as [[-> ->] | (l & Hne & ->)].
  - split; auto.
  - destruct (map_parseLogLine others) as [ls| |code] eqn:Hothers.
    + split; [discriminate |].
      intros [H | H]; [now contradiction Hne |].
      apply IH in H. discriminate.
    + split; [intros _; right; now apply IH | reflexivity].
    + now apply map_parseLogLine_never_exits in Hothers.
Qed.

Lemma map_parseLogLine_returned (lines : list Line) :
  forall ls : list LogLine,
    map_parseLogLine lines = Returned ls ->
    Forall2 (fun line l => parseLogLine line = Returned l) lines ls.
Proof.
  induction lines as [|line others IH]; intros ls.
  - intros [= <-]. constructor.
  - cbn [map_parseLogLine].
    destruct (parseLogLine line) as [l| |code] eqn:Hl; try discriminate.
    destruct (map_parseLogLine others) as [ls'| |code]; try discriminate.
    intros [= <-]. constructor; [exact Hl | now apply IH].
Qed.

Lemma map_parseLogLine_app (lines1 lines2 : list Line) :
  map_parseLogLine (lines1 ++ lines2) =
    match map_parseLogLine lines1, map_parseLogLine lines2 with
    | Returned ls1, Returned ls2 => Returned (ls1 ++ ls2)
    | Returned _, Thrown => Thrown
    | Returned _, Exited code => Exited code
    | Thrown, _ => Thrown
    | Exited code, _ => Exited code
    end.
Proof.
  induction lines1 as [|line others IH].
  - cbn. now destruct (map_parseLogLine lines2).
  - cbn [app map_parseLogLine]. rewrite IH.
    destruct (parseLogLine line); try reflexivity.
    destruct (map_parseLogLine others); try reflexivity.
    destruct (map_parseLogLine lines2); reflexivity.
Qed.

(** X8: parsing a file is all or nothing.  It throws exactly when some
    line is malformed, whatever the other lines are; when it returns, it
    returns one LogLine per line, in order, the one parseLogLine gives for
    that line. *)
Theorem parseLog_all_or_nothing (p : Path) (w : World) :
  (fst (parseLog p w) = Thrown <-> In Malformed (file_lines (file p w))) /\
  (forall ls : list LogLine,
      fst (parseLog p w) = Returned ls ->
      List.length ls = List.length (file_lines (file p w)) /\
      Forall2 (fun line l => parseLogLine line = Returned l)
              (file_lines (file p w)) ls) /\
  snd (parseLog p w) = w.
Proof.
  rewrite parseLog_spec. cbn [fst snd].
  split; [apply map_parseLogLine_thrown |]. split; [| reflexivity].
  intros ls Hls. apply map_parseLogLine_returned in Hls.
  split; [symmetry; exact (Forall2_length Hls) | exact Hls].
Qed.

Lemma readLogs_thrown (w : World) :
  fst (readLogs w) = Thrown <->
  In Malformed (file_lines (primaryLog w)) \/
  In Malformed (file_lines (failuresLog w)).
Proof.
  rewrite readLogs_spec.
  destruct (map_parseLogLine (file_lines (primaryLog w))) as [primary| |c]
    eqn:Hp.
  - assert (Hnp : ~ In Malformed (file_lines (primaryLog w))).
    { intros H. apply map_parseLogLine_thrown in H. congruence. }
    destruct (file_lines (failuresLog w)) as [|line others] eqn:Hf.
    + cbn [fst]. split; [discriminate | intros [H | []]; contradiction].
    + destruct (map_parseLogLine (line :: others)) as [rec| |c] eqn:Hr;
        cbn [fst].
      * split; [discriminate |]. intros [H | H]; [contradiction |].
        apply map_parseLogLine_thrown in H. congruence.
      * split; [| reflexivity]. intros _. right.
        now apply map_parseLogLine_thrown.
      * now apply map_parseLogLine_never_exits in Hr.
  - cbn [fst]. split; [| reflexivity]. intros _. left.
    now apply map_parseLogLine_thrown.
  - now apply map_parseLogLine_never_exits in Hp.
Qed.

Lemma readLogs_thrown_world (w : World) :
  fst (readLogs w) = Thrown -> snd (readLogs w) = w.
Proof.
  rewrite readLogs_spec.
  destruct (map_parseLogLine (file_lines (primaryLog w)));
    destruct (file_lines (failuresLog w));
    try destruct (map_parseLogLine (_ :: _));
    cbn [fst snd]; intros H; try discriminate; reflexivity.
Qed.

(** X9: the loader never loses recovery lines: after the logs have been
    read the recovery log is as it was, unless every line of both logs
    parsed, in which case it has been truncated and its lines are the tail
    of the merged sequence. *)
Theorem readLogs_keeps_or_merges_recovery_lines (w : World) :
  snd (readLogs w) = w \/
  exists primary recovered,
    map_parseLogLine (file_lines (primaryLog w)) = Returned primary /\
    map_parseLogLine (file_lines (failuresLog w)) = Returned recovered /\
    readLogs w = (Returned (primary ++ recovered), recovery_cleared w).
Proof.
  rewrite readLogs_spec.
  destruct (map_parseLogLine (file_lines (primaryLog w))) as [primary| |c];
    try (left; reflexivity).
  destruct (file_lines (failuresLog w)) as [|line others];
    [left; reflexivity |].
  destruct (map_parseLogLine (line :: others)) as [recovered| |c];
    try (left; reflexivity).
  right. exists primary, recovered. auto.
Qed.

Lemma readLogs_returned_recovery_empty (w w1 : World) (ls : list LogLine) :
  readLogs w = (Returned ls, w1) -> file_lines (failuresLog w1) = [].
Proof.
  rewrite readLogs_spec.
  destruct (map_parseLogLine (file_lines (primaryLog w))); try discriminate.
  destruct (file_lines (failuresLog w)) eqn:Hf.
  - intros [= _ <-]. exact Hf.
  - destruct (map_parseLogLine (_ :: _)); try discriminate.
    intros [= _ <-]. reflexivity.
Qed.

Lemma parse_requeued_batch (batch : list WorkPeriod) :
  map_parseLogLine (flat_map getLogLinesFromWorkPeriod batch) =
    Returned (flat_map reread_lines batch).
Proof.
  induction batch as [|wp batch IH]; [reflexivity |].
  cbn [flat_map]. rewrite map_parseLogLine_app, IH, parse_requeued_lines.
  reflexivity.
Qed.

Lemma reduce_requeued_batch (batch : list WorkPeriod) :
  Forall requeues_exactly batch ->
  getWorkPeriods (flat_map reread_lines batch) = batch.
Proof.
  induction 1 as [|wp batch Hwp _ IH]; [reflexivity |].
  cbn [flat_map].
  destruct Hwp as (s & k & Hk & -> & Hs & He).
  unfold reread_lines at 1. cbn [start end_]. rewrite Hs, He.
  rewrite (getWorkPeriods_app [_; _]).
  rewrite (ends_closed_no_open [_; _]).
  - fold reducer_init. fold (getWorkPeriods (flat_map reread_lines batch)).
    rewrite IH, getWorkPeriods_open_close.
    rewrite normalizeWorkPeriod_whole_minutes by exact Hk.
    now rewrite (TimeClip_in_range _ (reread_valid_range _ _ He)).
  - right. eexists [_], _. split; reflexivity.
Qed.

(** X10: a recovery log holding several re-queued periods is recovered in
    full.  For periods that are normalizer output and whose time values
    survive the conversion to seconds, the lines written for them, one
    pair after the other, parse without error into alternating opening and
    stopping lines, and reducing those gives back the same periods in the
    same order. *)
Theorem requeued_batch_round_trip (batch : list WorkPeriod) :
  Forall requeues_exactly batch ->
  map_parseLogLine (flat_map getLogLinesFromWorkPeriod batch) =
    Returned (flat_map reread_lines batch) /\
  getWorkPeriods (flat_map reread_lines batch) = batch.
Proof.
  intros Hbatch. split.
  - apply parse_requeued_batch.
  - now apply reduce_requeued_batch.
Qed.

Lemma requeued_batch_round_trip_witness :
  Forall requeues_exactly
         [mkWorkPeriod (ValidDate 100000) (ValidDate (100000 + 11 * MINUTE));
          mkWorkPeriod (ValidDate 2000000) (ValidDate (2000000 + 25 * MINUTE));
          mkWorkPeriod (ValidDate 1700000000123)
                       (ValidDate (1700000000123 + 5 * MINUTE))] /\
  map_parseLogLine
    (flat_map getLogLinesFromWorkPeriod
       [mkWorkPeriod (ValidDate 100000) (ValidDate (100000 + 11 * MINUTE));
        mkWorkPeriod (ValidDate 2000000) (ValidDate (2000000 + 25 * MINUTE));
        mkWorkPeriod (ValidDate 1700000000123)
                     (ValidDate (1700000000123 + 5 * MINUTE))]) =
    Returned
      (flat_map reread_lines
         [mkWorkPeriod (ValidDate 100000) (ValidDate (100000 + 11 * MINUTE));
          mkWorkPeriod (ValidDate 2000000) (ValidDate (2000000 + 25 * MINUTE));
          mkWorkPeriod (ValidDate 1700000000123)
                       (ValidDate (1700000000123 + 5 * MINUTE))]) /\
  getWorkPeriods
    (flat_map reread_lines
       [mkWorkPeriod (ValidDate 100000) (ValidDate (100000 + 11 * MINUTE));
        mkWorkPeriod (ValidDate 2000000) (ValidDate (2000000 + 25 * MINUTE));
        mkWorkPeriod (ValidDate 1700000000123)
                     (ValidDate (1700000000123 + 5 * MINUTE))]) =
    [mkWorkPeriod (ValidDate 100000) (ValidDate (100000 + 11 * MINUTE));
     mkWorkPeriod (ValidDate 2000000) (ValidDate (2000000 + 25 * MINUTE));
     mkWorkPeriod (ValidDate 1700000000123)
                  (ValidDate (1700000000123 + 5 * MINUTE))].
Proof.
  assert (H : Forall requeues_exactly
                [mkWorkPeriod (ValidDate 100000)
                              (ValidDate (100000 + 11 * MINUTE));
                 mkWorkPeriod (ValidDate 2000000)
                              (ValidDate (2000000 + 25 * MINUTE));
                 mkWorkPeriod (ValidDate 1700000000123)
                              (ValidDate (1700000000123 + 5 * MINUTE))]).
  { constructor; [| constructor; [| constructor; [| constructor]]].
    - exists 100000, 11. split; [lia |]. split; [reflexivity |].
      split; vm_compute; reflexivity.
    - exists 2000000, 25. split; [lia |]. split; [reflexivity |].
      split; vm_compute; reflexivity.
    - exists 1700000000123, 5. split; [lia |]. split; [reflexivity |].
      split; vm_compute; reflexivity. }
  split; [exact H |].
  exact (requeued_batch_round_trip _ H).
Defined.

(** ** The whole run *)

Section RunProperties.

Variable Number_toString : float -> string.
Variable toISOString : Z -> string.
Variable notion_pages_create :
  list (WorkNotionDatabasePropertySchema * bool) ->
  WorkNotionDatabasePropertySchema -> bool.

Local Abbreviation record_of := (createWorkProperty Number_toString toISOString).
Local Abbreviation post_or_requeue :=
  (postOrRequeue Number_toString toISOString notion_pages_create).
Local Abbreviation run := (main Number_toString toISOString notion_pages_create).
Local Abbreviation records := (delivery_records Number_toString toISOString).

Lemma forEach_postOrRequeue_returns (batch : list WorkPeriod) (w : World) :
  forEach batch post_or_requeue w =
    (Returned tt, snd (forEach batch post_or_requeue w)).
Proof.
  destruct (forEach_postOrRequeue Number_toString toISOString
              notion_pages_create batch w) as (w' & Hrun & _).
  now rewrite Hrun.
Qed.

Lemma main_spec (w w1 : World) (logLines : list LogLine) :
  readLogs w = (Returned logLines, w1) ->
  run w =
    if (Z.of_nat (List.length logLines) =? 0) then (Exited 1, w1)
    else if stopping (last logLines (mkLogLine false InvalidDate))
    then (Returned tt,
          set_file resolvedPath []
            (snd (forEach (getWorkPeriods logLines) post_or_requeue w1)))
    else (Exited 0, w1).
Proof.
  intros Hread.
  rewrite (main_after_readLogs Number_toString toISOString
             notion_pages_create _ _ _ Hread).
  destruct (Z.of_nat (List.length logLines) =? 0); [reflexivity |].
  destruct (stopping (last logLines _)); cbn [negb]; [| reflexivity].
  unfold bind. rewrite forEach_postOrRequeue_returns. reflexivity.
Qed.

Lemma main_thrown (w : World) :
  fst (readLogs w) = Thrown -> run w = (Thrown, w).
Proof.
  intros Hthrown. pose proof (readLogs_thrown_world w Hthrown) as Hw.
  unfold main, bind. destruct (readLogs w) as [r w1].
  cbn [fst snd] in *. subst. reflexivity.
Qed.

(** X11: a line that is not JSON, in either log, aborts the run with an
    uncaught exception while the logs are being read: nothing is posted,
    nothing is re-queued, and both logs are left as they were (the
    recovery log is not cleared, the primary log is not truncated). *)
Theorem malformed_line_aborts_run (w : World) :
  In Malformed (file_lines (primaryLog w)) \/
  In Malformed (file_lines (failuresLog w)) ->
  run w = (Thrown, w).
Proof.
  intros Hbad. apply main_thrown. now apply readLogs_thrown.
Qed.

(** X12: when neither log has a line (a missing file has none), the run
    stops at its [process.exit(1)] and creates and changes nothing: no
    request reaches the Sink and both logs are left as they were. *)
Theorem no_log_lines_exit_1 (w : World) :
  file_lines (primaryLog w) = [] ->
  file_lines (failuresLog w) = [] ->
  run w = (Exited 1, w).
Proof.
  intros Hp Hf.
  assert (Hread : readLogs w = (Returned [], w))
    by (rewrite readLogs_spec, Hp, Hf; reflexivity).
  rewrite (main_spec _ _ _ Hread). reflexivity.
Qed.

(** X13: a period with an Invalid date is never sent to the Sink: building
    its record throws, and the loop re-queues it.  A period with two valid
    dates makes exactly one request. *)
Theorem invalid_date_never_reaches_sink (wp : WorkPeriod) (w : World) :
  (start wp = InvalidDate \/ end_ wp = InvalidDate ->
   post_or_requeue wp w = (Returned tt, requeued wp w)) /\
  (forall s e : Z,
      start wp = ValidDate s -> end_ wp = ValidDate e ->
      exists properties ok,
        record_of wp = Returned properties /\
        notionRequests (snd (post_or_requeue wp w)) =
          notionRequests w ++ [(properties, ok)]).
Proof.
  rewrite (postOrRequeue_spec Number_toString toISOString notion_pages_create).
  unfold createWorkProperty. split.
  - intros [H | H]; rewrite H; [reflexivity |].
    now destruct (start wp).
  - intros s e -> ->.
    eexists. exists (notion_pages_create (notionRequests w)
                       (mkProperties
                          ("⏳ " ++ Number_toString
                                     (Number_of_Z (e - s) / 1000 / 60)%float)
                          (toISOString s) (toISOString e))).
    split; [reflexivity |].
    destruct (notion_pages_create _ _); reflexivity.
Qed.

Lemma accepted_snoc (requests : list (WorkNotionDatabasePropertySchema * bool))
    (properties : WorkNotionDatabasePropertySchema) (ok : bool) :
  accepted (requests ++ [(properties, ok)]) =
    (accepted requests + (if ok then 1 else 0))%nat.
Proof.
  unfold accepted. rewrite filter_app, length_app.
  destruct ok; reflexivity.
Qed.

Lemma forEach_accounts_for_every_period (batch : list WorkPeriod) :
  forall w : World,
    (List.length (file_lines (failuresLog (snd (forEach batch post_or_requeue w)))) +
     2 * accepted (notionRequests (snd (forEach batch post_or_requeue w))) =
     List.length (file_lines (failuresLog w)) +
     2 * accepted (notionRequests w) + 2 * List.length batch)%nat.
Proof.
  induction batch as [|wp batch IH]; intros w; [cbn; lia |].
  cbn [forEach]. unfold bind.
  rewrite (postOrRequeue_spec Number_toString toISOString notion_pages_create).
  destruct (record_of wp) as [properties| |code].
  - destruct (notion_pages_create (notionRequests w) properties);
      rewrite IH;
      cbn [requeued requested failuresLog notionRequests file_lines List.length];
      rewrite accepted_snoc, ?length_app; cbn [List.length]; lia.
  - rewrite IH.
    cbn [requeued failuresLog notionRequests file_lines List.length].
    rewrite length_app. cbn [List.length]. lia.
  - rewrite IH.
    cbn [requeued failuresLog notionRequests file_lines List.length].
    rewrite length_app. cbn [List.length]. lia.
Qed.

(** X14: in a run that reaches delivery every period of the batch is
    accounted for: it was either accepted by the Sink or it has two lines
    in the recovery log, which holds nothing else. *)
Theorem delivery_accounts_for_every_period
    (w w1 : World) (init : list LogLine) (final : LogLine) :
  readLogs w = (Returned (init ++ [final]), w1) ->
  stopping final = true ->
  (List.length (file_lines (failuresLog (snd (run w)))) +
   2 * accepted (notionRequests (snd (run w))) =
   2 * accepted (notionRequests w) +
   2 * List.length (getWorkPeriods (init ++ [final])))%nat.
Proof.
  intros Hread Hfinal.
  destruct (readLogs_frame _ _ _ Hread) as [_ Hreq].
  pose proof (readLogs_returned_recovery_empty _ _ _ Hread) as Hempty.
  rewrite (main_spec _ _ _ Hread), length_snoc_nonzero, last_last, Hfinal.
  cbn [snd set_file failuresLog notionRequests].
  rewrite forEach_accounts_for_every_period, Hempty, Hreq.
  cbn [List.length]. lia.
Qed.

End RunProperties.

Lemma malformed_line_aborts_run_witness :
  (In Malformed (file_lines (primaryLog
      (mkWorld (Some [transition idle work 100; Malformed])
               (Some [transition idle work 10; transition work idle 700])
               []))) \/
   In Malformed (file_lines (failuresLog
      (mkWorld (Some [transition idle work 100; Malformed])
               (Some [transition idle work 10; transition work idle 700])
               [])))) /\
  main decimal_Number_toString decimal_toISOString sink_accepts_all
    (mkWorld (Some [transition idle work 100; Malformed])
             (Some [transition idle work 10; transition work idle 700]) []) =
    (Thrown,
     mkWorld (Some [transition idle work 100; Malformed])
             (Some [transition idle work 10; transition work idle 700]) []).
Proof.
  assert (H : In Malformed (file_lines (primaryLog
            (mkWorld (Some [transition idle work 100; Malformed])
                     (Some [transition idle work 10; transition work idle 700])
                     []))))
    by (right; left; reflexivity).
  split; [left; exact H |].
  exact (malformed_line_aborts_run decimal_Number_toString
           decimal_toISOString sink_accepts_all _ (or_introl H)).
Defined.

Lemma no_log_lines_exit_1_witness :
  file_lines (primaryLog (mkWorld None (Some []) [])) = [] /\
  file_lines (failuresLog (mkWorld None (Some []) [])) = [] /\
  main decimal_Number_toString decimal_toISOString sink_accepts_all
    (mkWorld None (Some []) []) = (Exited 1, mkWorld None (Some []) []).
Proof.
  split; [reflexivity | split; [reflexivity |]].
  exact (no_log_lines_exit_1 decimal_Number_toString
           decimal_toISOString sink_accepts_all
           (mkWorld None (Some []) []) eq_refl eq_refl).
Defined.

Lemma delivery_accounts_for_every_period_witness :
  readLogs recovery_world =
    (Returned ([work_open 2000000; idle_close 2600000; work_open 100000] ++
               [idle_close 760000]),
     recovery_cleared recovery_world) /\
  stopping (idle_close 760000) = true /\
  (List.length
     (file_lines
        (failuresLog
           (snd (main decimal_Number_toString decimal_toISOString
                      sink_rejects_all recovery_world)))) +
   2 * accepted
         (notionRequests
            (snd (main decimal_Number_toString decimal_toISOString
                       sink_rejects_all recovery_world))) =
   2 * accepted (notionRequests recovery_world) +
   2 * List.length
         (getWorkPeriods
            ([work_open 2000000; idle_close 2600000; work_open 100000] ++
             [idle_close 760000])))%nat.
Proof.
  assert (Hread : readLogs recovery_world =
                    (Returned ([work_open 2000000; idle_close 2600000;
                                work_open 100000] ++ [idle_close 760000]),
                     recovery_cleared recovery_world))
    by (vm_compute; reflexivity).
  assert (Hfinal : stopping (idle_close 760000) = true) by reflexivity.
  split; [exact Hread | split; [exact Hfinal |]].
  exact (delivery_accounts_for_every_period decimal_Number_toString
           decimal_toISOString sink_rejects_all _ _ _ _ Hread Hfinal).
Defined.

Lemma invalid_date_never_reaches_sink_witness :
  end_ (mkWorkPeriod (ValidDate 0) InvalidDate) = InvalidDate /\
  postOrRequeue decimal_Number_toString decimal_toISOString sink_accepts_all
    (mkWorkPeriod (ValidDate 0) InvalidDate) scenario_world =
    (Returned tt, requeued (mkWorkPeriod (ValidDate 0) InvalidDate) scenario_world).
Proof.
  split; [reflexivity |].
  exact (proj1 (invalid_date_never_reaches_sink decimal_Number_toString
                  decimal_toISOString sink_accepts_all
                  (mkWorkPeriod (ValidDate 0) InvalidDate) scenario_world)
               (or_intror eq_refl)).
Defined.

(** ** From one run to the next *)

Lemma readLogs_only_recovery (w : World) (recovered : list LogLine) :
  file_lines (primaryLog w) = [] ->
  file_lines (failuresLog w) <> [] ->
  map_parseLogLine (file_lines (failuresLog w)) = Returned recovered ->
  readLogs w = (Returned recovered, recovery_cleared w).
Proof.
  intros Hp Hne Hr. rewrite readLogs_spec, Hp. cbn [map_parseLogLine].
  destruct (file_lines (failuresLog w)) as [|line others];
    [contradiction |].
  cbn [map_parseLogLine] in Hr. rewrite Hr. reflexivity.
Qed.

Lemma reread_lines_end_closed (batch : list WorkPeriod) :
  batch <> [] ->
  exists init final,
    flat_map reread_lines batch = init ++ [final] /\ stopping final = true.
Proof.
  intros Hne. destruct (exists_last Hne) as (front & wp & ->).
  rewrite flat_map_app. cbn [flat_map reread_lines app].
  exists (flat_map reread_lines front ++ [mkLogLine false (reread (start wp))]),
         (mkLogLine true (reread (end_ wp))).
  rewrite <- app_assoc. split; reflexivity.
Qed.

Section NextRun.

Variable Number_toString : float -> string.
Variable toISOString : Z -> string.
Variable notion_pages_create :
  list (WorkNotionDatabasePropertySchema * bool) ->
  WorkNotionDatabasePropertySchema -> bool.

Local Abbreviation run := (main Number_toString toISOString notion_pages_create).
Local Abbreviation records := (delivery_records Number_toString toISOString).

(** X15: what failed is tried again.  When the Sink rejects every request
    of a run, and the periods of its batch have time values that survive
    the conversion to seconds, the next run (on the files the first one
    left, whatever the Sink then answers) sends the Sink the records of
    exactly the same periods, in the same order. *)
Theorem rejected_batch_is_retried_next_run
    (retry_sink : list (WorkNotionDatabasePropertySchema * bool) ->
                  WorkNotionDatabasePropertySchema -> bool)
    (w w1 : World) (init : list LogLine) (final : LogLine) :
  (forall history properties,
      notion_pages_create history properties = false) ->
  readLogs w = (Returned (init ++ [final]), w1) ->
  stopping final = true ->
  Forall requeues_exactly (getWorkPeriods (init ++ [final])) ->
  map fst (notionRequests
             (snd (main Number_toString toISOString retry_sink
                        (snd (run w))))) =
    map fst (notionRequests (snd (run w))) ++
    records (getWorkPeriods (init ++ [final])).
Proof.
  intros Hrej Hread Hfinal Hexact.
  pose proof (readLogs_returned_recovery_empty _ _ _ Hread) as Hempty.
  rewrite (main_spec Number_toString toISOString notion_pages_create
             _ _ _ Hread), length_snoc_nonzero, last_last, Hfinal.
  cbn [snd].
  set (batch := getWorkPeriods (init ++ [final])) in *.
  pose proof (forEach_all_rejected Number_toString toISOString
                notion_pages_create batch Hrej w1) as Hq.
  rewrite Hempty in Hq. cbn [app] in Hq.
  set (w2 := set_file resolvedPath [] _).
  assert (Hp2 : file_lines (primaryLog w2) = []) by reflexivity.
  assert (Hf2 : file_lines (failuresLog w2) =
                flat_map getLogLinesFromWorkPeriod batch) by exact Hq.
  destruct batch as [|wp others] eqn:Hbatch.
  - assert (Hread2 : readLogs w2 = (Returned [], w2)).
    { rewrite readLogs_spec, Hp2, Hf2. reflexivity. }
    rewrite (main_spec Number_toString toISOString retry_sink _ _ _ Hread2).
    cbn. now rewrite app_nil_r.
  - rewrite <- Hbatch in *.
    assert (Hne : batch <> []) by (rewrite Hbatch; discriminate).
    assert (Hread2 : readLogs w2 =
                       (Returned (flat_map reread_lines batch),
                        recovery_cleared w2)).
    { apply readLogs_only_recovery; [exact Hp2 | |].
      - rewrite Hf2, Hbatch. discriminate.
      - rewrite Hf2. apply parse_requeued_batch. }
    destruct (reread_lines_end_closed batch Hne) as (i & f & Hsplit & Hstop).
    rewrite (main_spec Number_toString toISOString retry_sink _ _ _ Hread2).
    rewrite Hsplit, length_snoc_nonzero, last_last, Hstop, <- Hsplit.
    rewrite (reduce_requeued_batch batch Hexact).
    destruct (forEach_postOrRequeue Number_toString toISOString retry_sink
                batch (recovery_cleared w2)) as (w3 & Hrun & _ & Hreq).
    rewrite Hrun. cbn [snd set_file notionRequests].
    rewrite Hreq. reflexivity.
Qed.

End NextRun.

Lemma rejected_batch_is_retried_next_run_witness :
  (forall history properties, sink_rejects_all history properties = false) /\
  readLogs scenario_world =
    (Returned ([work_open 100000] ++ [idle_close 750000]), scenario_world) /\
  stopping (idle_close 750000) = true /\
  Forall requeues_exactly
         (getWorkPeriods ([work_open 100000] ++ [idle_close 750000])) /\
  map fst (notionRequests
             (snd (main decimal_Number_toString decimal_toISOString
                        sink_accepts_all
                        (snd (main decimal_Number_toString decimal_toISOString
                                   sink_rejects_all scenario_world))))) =
    map fst (notionRequests
               (snd (main decimal_Number_toString decimal_toISOString
                          sink_rejects_all scenario_world))) ++
    delivery_records decimal_Number_toString decimal_toISOString
      (getWorkPeriods ([work_open 100000] ++ [idle_close 750000])).
Proof.
  assert (Hrej : forall history properties,
             sink_rejects_all history properties = false)
    by (intros history properties; reflexivity).
  assert (Hread : readLogs scenario_world =
                    (Returned ([work_open 100000] ++ [idle_close 750000]),
                     scenario_world))
    by (vm_compute; reflexivity).
  assert (Hfinal : stopping (idle_close 750000) = true) by reflexivity.
  assert (Hexact : Forall requeues_exactly
                     (getWorkPeriods ([work_open 100000] ++ [idle_close 750000]))).
  { replace (getWorkPeriods ([work_open 100000] ++ [idle_close 750000]))
      with [mkWorkPeriod (ValidDate 100000) (ValidDate (100000 + 11 * MINUTE))]
      by (vm_compute; reflexivity).
    constructor; [| constructor]. exists 100000, 11.
    split; [lia |]. split; [reflexivity |].
    split; vm_compute; reflexivity. }
  split; [exact Hrej | split; [exact Hread | split; [exact Hfinal |]]].
  split; [exact Hexact |].
  exact (rejected_batch_is_retried_next_run decimal_Number_toString
           decimal_toISOString sink_rejects_all sink_accepts_all
           _ _ _ _ Hrej Hread Hfinal Hexact).
Defined.

(** ** Runs that meet re-queued lines, and runs where all goes well *)

Lemma getWorkPeriods_valid_dates (log : list LogLine) :
  dates_leave_room log ->
  Forall has_valid_dates (getWorkPeriods log).
Proof.
  intros Hroom. unfold getWorkPeriods.
  apply (fold_reducer_emits leaves_room has_valid_dates).
  - intros s e p Hs Hn.
    destruct (normalizeWorkPeriod_valid_shape s e p Hn) as (k & Hk & ->).
    exists s, (s + k * MINUTE). split; [reflexivity |]. cbn [end_].
    apply TimeClip_in_range.
    unfold leaves_room, MAX_WORK_PERIOD, MINUTE in *. lia.
  - exact Hroom.
  - exact I.
  - constructor.
Qed.

Section SmoothRuns.

Variable Number_toString : float -> string.
Variable toISOString : Z -> string.
Variable notion_pages_create :
  list (WorkNotionDatabasePropertySchema * bool) ->
  WorkNotionDatabasePropertySchema -> bool.

Local Abbreviation post_or_requeue :=
  (postOrRequeue Number_toString toISOString notion_pages_create).
Local Abbreviation run := (main Number_toString toISOString notion_pages_create).
Local Abbreviation records := (delivery_records Number_toString toISOString).

(** X17: re-queued lines switch the in-progress gate off.  When the
    recovery log holds the lines of at least one re-queued period, the
    merged log ends with a stopping line whatever the primary log holds,
    so the run goes on to delivery and empties the primary log, even when
    the primary log ends with a work period still open. *)
Theorem requeued_lines_disable_in_progress_gate
    (w : World) (primary : list LogLine) (batch : list WorkPeriod) :
  map_parseLogLine (file_lines (primaryLog w)) = Returned primary ->
  file_lines (failuresLog w) = flat_map getLogLinesFromWorkPeriod batch ->
  batch <> [] ->
  fst (run w) = Returned tt /\ primaryLog (snd (run w)) = Some [].
Proof.
  intros Hp Hf Hne.
  destruct (reread_lines_end_closed batch Hne) as (i & f & Hsplit & Hstop).
  assert (Hread : readLogs w =
                    (Returned ((primary ++ i) ++ [f]), recovery_cleared w)).
  { rewrite readLogs_spec, Hp.
    pose proof (parse_requeued_batch batch) as Hr. rewrite <- Hf in Hr.
    destruct (file_lines (failuresLog w)) as [|line others] eqn:Hlines.
    - destruct batch as [|wp others]; [contradiction | discriminate].
    - cbn [map_parseLogLine] in Hr. cbn [map_parseLogLine].
      rewrite Hr, Hsplit, app_assoc. reflexivity. }
  rewrite (main_spec Number_toString toISOString notion_pages_create
             _ _ _ Hread), length_snoc_nonzero, last_last, Hstop.
  split; reflexivity.
Qed.

Lemma forEach_all_accepted (batch : list WorkPeriod) :
  (forall history properties,
      notion_pages_create history properties = true) ->
  Forall has_valid_dates batch ->
  forall w : World,
    failuresLog (snd (forEach batch post_or_requeue w)) = failuresLog w /\
    notionRequests (snd (forEach batch post_or_requeue w)) =
      notionRequests w ++ map (fun properties => (properties, true))
                              (records batch).
Proof.
  intros Hacc. induction 1 as [|wp batch Hwp _ IH]; intros w.
  - cbn. now rewrite app_nil_r.
  - cbn [forEach]. unfold bind.
    rewrite (postOrRequeue_spec Number_toString toISOString notion_pages_create).
    unfold delivery_records. cbn [flat_map]. fold (records batch).
    destruct Hwp as (s & e & Hs & He).
    set (properties :=
           mkProperties
             ("⏳ " ++ Number_toString (Number_of_Z (e - s) / 1000 / 60)%float)
             (toISOString s) (toISOString e)).
    assert (Hrec : createWorkProperty Number_toString toISOString wp =
                   Returned properties)
      by (unfold createWorkProperty; rewrite Hs, He; reflexivity).
    rewrite Hrec, Hacc.
    destruct (IH (requested properties true w)) as [Hf Hr].
    split.
    + rewrite Hf. reflexivity.
    + rewrite Hr. cbn [requested notionRequests app map].
      now rewrite <- app_assoc.
Qed.

(** X18: when every line of the merged log carries a valid time that leaves
    room for the longest period (at most 8.64e15 ms minus 25 minutes), its
    last line is a stopping line and the Sink accepts every request, the
    run returns normally, the Sink has received and accepted the record of
    every period of the batch, in order, the primary log is empty and the
    recovery log has no lines. *)
Theorem accepted_run_leaves_nothing_behind
    (w w1 : World) (init : list LogLine) (final : LogLine) :
  (forall history properties,
      notion_pages_create history properties = true) ->
  readLogs w = (Returned (init ++ [final]), w1) ->
  stopping final = true ->
  Forall (fun line => exists t, date line = ValidDate t /\
                                - Date_max <= t <= Date_max - MAX_WORK_PERIOD)
         (init ++ [final]) ->
  fst (run w) = Returned tt /\
  primaryLog (snd (run w)) = Some [] /\
  file_lines (failuresLog (snd (run w))) = [] /\
  notionRequests (snd (run w)) =
    notionRequests w ++
    map (fun properties => (properties, true))
        (records (getWorkPeriods (init ++ [final]))).
Proof.
  intros Hacc Hread Hfinal Hvalid.
  destruct (readLogs_frame _ _ _ Hread) as [_ Hreq].
  pose proof (readLogs_returned_recovery_empty _ _ _ Hread) as Hempty.
  rewrite (main_spec Number_toString toISOString notion_pages_create
             _ _ _ Hread), length_snoc_nonzero, last_last, Hfinal.
  cbn [fst snd set_file primaryLog failuresLog notionRequests].
  destruct (forEach_all_accepted (getWorkPeriods (init ++ [final])) Hacc
              (getWorkPeriods_valid_dates _ Hvalid) w1) as [Hf Hr].
  rewrite Hf, Hr, Hempty, Hreq. auto.
Qed.

End SmoothRuns.

Lemma requeued_lines_disable_in_progress_gate_witness :
  map_parseLogLine
    (file_lines (primaryLog
       (mkWorld (Some [transition idle work 2000])
                (Some (flat_map getLogLinesFromWorkPeriod
                         [mkWorkPeriod (ValidDate 100000) (ValidDate 760000)]))
                []))) = Returned [work_open 2000000] /\
  fst (main decimal_Number_toString decimal_toISOString sink_accepts_all
         (mkWorld (Some [transition idle work 2000])
                  (Some (flat_map getLogLinesFromWorkPeriod
                           [mkWorkPeriod (ValidDate 100000) (ValidDate 760000)]))
                  [])) = Returned tt /\
  primaryLog
    (snd (main decimal_Number_toString decimal_toISOString sink_accepts_all
            (mkWorld (Some [transition idle work 2000])
                     (Some (flat_map getLogLinesFromWorkPeriod
                              [mkWorkPeriod (ValidDate 100000) (ValidDate 760000)]))
                     []))) = Some [].
Proof.
  assert (Hp : map_parseLogLine
                 (file_lines (primaryLog
                    (mkWorld (Some [transition idle work 2000])
                             (Some (flat_map getLogLinesFromWorkPeriod
                                      [mkWorkPeriod (ValidDate 100000)
                                                    (ValidDate 760000)]))
                             []))) = Returned [work_open 2000000])
    by (vm_compute; reflexivity).
  split; [exact Hp |].
  refine (requeued_lines_disable_in_progress_gate decimal_Number_toString
            decimal_toISOString sink_accepts_all _ _
            [mkWorkPeriod (ValidDate 100000) (ValidDate 760000)]
            Hp eq_refl _).
  discriminate.
Defined.

Lemma accepted_run_leaves_nothing_behind_witness :
  (forall history properties, sink_accepts_all history properties = true) /\
  readLogs scenario_world =
    (Returned ([work_open 100000] ++ [idle_close 750000]), scenario_world) /\
  stopping (idle_close 750000) = true /\
  Forall (fun line => exists t, date line = ValidDate t /\
                                - Date_max <= t <= Date_max - MAX_WORK_PERIOD)
         ([work_open 100000] ++ [idle_close 750000]) /\
  file_lines
    (failuresLog
       (snd (main decimal_Number_toString decimal_toISOString sink_accepts_all
                  scenario_world))) = [].
Proof.
  assert (Hacc : forall history properties,
             sink_accepts_all history properties = true)
    by (intros history properties; reflexivity).
  assert (Hread : readLogs scenario_world =
                    (Returned ([work_open 100000] ++ [idle_close 750000]),
                     scenario_world))
    by (vm_compute; reflexivity).
  assert (Hfinal : stopping (idle_close 750000) = true) by reflexivity.
  assert (Hvalid : Forall (fun line => exists t, date line = ValidDate t /\
                             - Date_max <= t <= Date_max - MAX_WORK_PERIOD)
                          ([work_open 100000] ++ [idle_close 750000])).
  { repeat constructor; eexists; (split; [reflexivity |]);
      vm_compute; split; discriminate. }
  split; [exact Hacc | split; [exact Hread | split; [exact Hfinal |]]].
  split; [exact Hvalid |].
  exact (proj1 (proj2 (proj2
           (accepted_run_leaves_nothing_behind decimal_Number_toString
              decimal_toISOString sink_accepts_all _ _ _ _
              Hacc Hread Hfinal Hvalid)))).
Defined.

Lemma parseLog_all_or_nothing_witness :
  In Malformed
     (file_lines (file resolvedPath
        (mkWorld (Some [transition idle work 100; Malformed;
                        transition work idle 750]) None []))) /\
  fst (parseLog resolvedPath
         (mkWorld (Some [transition idle work 100; Malformed;
                         transition work idle 750]) None [])) = Thrown.
Proof.
  assert (H : In Malformed
                 (file_lines (file resolvedPath
                    (mkWorld (Some [transition idle work 100; Malformed;
                                    transition work idle 750]) None []))))
    by (right; left; reflexivity).
  split; [exact H |].
  exact (proj2 (proj1 (parseLog_all_or_nothing resolvedPath _)) H).
Defined.
